(** * pytest-cpp: the Boost.Test adapter ([pytest_cpp/boost.py]) and its
    JUnit reader ([pytest_cpp/junit_xml.py]).

    The adapter treats a compiled test executable as a black box.  Everything
    the operating system contributes to one call (the output of the help
    probe, the exit status and captured output of the child process, the
    content of the files it leaves behind) is gathered in a record [OS]
    that the embedded functions take as an argument.  Python exceptions are
    values of [exn]; a function that may raise returns a [result].

    Strings are Rocq [string]s, that is sequences of characters with code
    points below 256.  The temporary directory and file of a run are removed
    in [finally] blocks on every way out; the removal does not change what a
    call returns or raises and is left out. *)

From Stdlib Require Import ZArith Lia Bool Ascii String DecimalString.
From stdpp Require Import base option list strings gmap.

Local Open Scope string_scope.
Local Open Scope Z_scope.

(* stdpp freezes string concatenation under [simpl]; the proofs below
   compute with it. *)
#[local] Arguments String.append !_ _ / : simpl nomatch.

(** ** Exceptions and results *)

Inductive exn : Type :=
  | AttributeError (what : string)   (* missing attribute, e.g. on None *)
  | KeyError (key : string)          (* d[key] on a dict without key *)
  | ValueError (what : string)       (* bad unpacking, int() of a non-number *)
  | TypeError (what : string)        (* call with a wrong number of arguments *)
  | ParseError                       (* xml.etree.ElementTree.ParseError *)
  | CalledProcessError (code : Z)    (* check_output: non-zero exit status *)
  | IOError                          (* open() of a missing file *)
  | UnicodeDecodeError               (* read() of a file that is not text *)
  | OSError                          (* the child process could not be spawned *)
  | SkipException.                   (* raised by pytest.skip() *)

Inductive result (A : Type) : Type :=
  | Ok (a : A)
  | Raise (e : exn).
Arguments Ok {A} a.
Arguments Raise {A} e.

Definition rbind {A B : Type} (m : result A) (k : A -> result B) : result B :=
  match m with
  | Ok a => k a
  | Raise e => Raise e
  end.

Notation "'do' x <- m ; k" := (rbind m (fun x => k))
  (at level 10, x pattern, m at level 100, k at level 200).

(** [for x in xs: acc = body(acc, x)] where the body may raise. *)
Fixpoint rfold {A B : Type} (body : B -> A -> result B) (xs : list A) (acc : B)
  : result B :=
  match xs with
  | [] => Ok acc
  | x :: xs' => do acc' <- body acc x; rfold body xs' acc'
  end.

(** ** Python's [str] operations used by the adapter *)

Module PyStr.

Definition LF : ascii := "010"%char.
Definition CR : ascii := "013"%char.
Definition DQ : ascii := "034"%char.   (* the double quote *)

Fixpoint take (n : nat) (s : string) : string :=
  match n, s with
  | S n', String c s' => String c (take n' s')
  | _, _ => EmptyString
  end.

Fixpoint drop (n : nat) (s : string) : string :=
  match n, s with
  | S n', String _ s' => drop n' s'
  | _, _ => s
  end.

(** [s[i:]] and [s[:i]] for an index [0 <= i]. *)
Definition slice_from (i : Z) (s : string) : string := drop (Z.to_nat i) s.
Definition slice_to (i : Z) (s : string) : string := take (Z.to_nat i) s.

(** [Some rest] when [s = pre ++ rest]. *)
Fixpoint strip_prefix (pre s : string) : option string :=
  match pre, s with
  | EmptyString, _ => Some s
  | String a pre', String b s' =>
      if Ascii.eqb a b then strip_prefix pre' s' else None
  | String _ _, EmptyString => None
  end.

(** [s.startswith(pre)] *)
Definition startswith (pre s : string) : bool :=
  match strip_prefix pre s with Some _ => true | None => false end.

(** The text before and after the first occurrence of [sep] in [s]. *)
Fixpoint partition (sep s : string) : option (string * string) :=
  match strip_prefix sep s with
  | Some rest => Some (EmptyString, rest)
  | None =>
      match s with
      | EmptyString => None
      | String c s' =>
          match partition sep s' with
          | Some (a, b) => Some (String c a, b)
          | None => None
          end
      end
  end.

(** [sub in s] *)
Definition contains (sub s : string) : bool :=
  match partition sub s with Some _ => true | None => false end.

(** The longest prefix of [s] whose characters satisfy [p], and the rest. *)
Fixpoint span (p : ascii -> bool) (s : string) : string * string :=
  match s with
  | String c s' =>
      if p c then let '(a, b) := span p s' in (String c a, b)
      else (EmptyString, s)
  | EmptyString => (EmptyString, EmptyString)
  end.

(** [s.split(sep)] for a non-empty [sep]: cut at the occurrences of [sep]
    found from left to right.  Every cut removes at least one character, so
    [String.length s] rounds are enough. *)
Fixpoint split_rounds (n : nat) (sep s : string) : list string :=
  match n with
  | O => [s]
  | S n' =>
      match partition sep s with
      | None => [s]
      | Some (a, b) => a :: split_rounds n' sep b
      end
  end.

Definition split (sep s : string) : list string :=
  split_rounds (String.length s) sep s.

(** [s.rfind(c)] for a one-character [c]: the last index of [c] in [s],
    [-1] when there is none. *)
Fixpoint rfind (c : ascii) (s : string) : Z :=
  match s with
  | EmptyString => -1
  | String a s' =>
      let r := rfind c s' in
      if 0 <=? r then r + 1 else if Ascii.eqb a c then 0 else -1
  end.

(** [sep.join(parts)] *)
Fixpoint join (sep : string) (parts : list string) : string :=
  match parts with
  | [] => EmptyString
  | [p] => p
  | p :: rest => p ++ sep ++ join sep rest
  end.

(** Line boundaries of [str.splitlines]: LF, CR, CR LF, VT, FF, FS, GS, RS
    and NEL. *)
Definition is_linebreak (c : ascii) : bool :=
  let n := nat_of_ascii c in
  ((n =? 10) || (n =? 11) || (n =? 12) || (n =? 13) ||
   (n =? 28) || (n =? 29) || (n =? 30) || (n =? 133))%nat.

Fixpoint splitlines_from (cur : string) (s : string) : list string :=
  match s with
  | EmptyString => if String.eqb cur EmptyString then [] else [cur]
  | String c s' =>
      if is_linebreak c then
        cur :: match s' with
               | String c' s'' =>
                   if Ascii.eqb c CR && Ascii.eqb c' LF
                   then splitlines_from EmptyString s''
                   else splitlines_from EmptyString s'
               | EmptyString => splitlines_from EmptyString s'
               end
      else splitlines_from (cur ++ String c EmptyString) s'
  end.

(** [s.splitlines()] *)
Definition splitlines (s : string) : list string := splitlines_from EmptyString s.

(** [str.isspace] on one character, which is also the class [\s] of [re]. *)
Definition is_space (c : ascii) : bool :=
  let n := nat_of_ascii c in
  ((n =? 32) || ((9 <=? n) && (n <=? 13)) || ((28 <=? n) && (n <=? 31)) ||
   (n =? 133) || (n =? 160))%nat.

(** [s.strip()] *)
Fixpoint lstrip (s : string) : string :=
  match s with
  | String c s' => if is_space c then lstrip s' else s
  | EmptyString => EmptyString
  end.

Fixpoint rstrip (s : string) : string :=
  match s with
  | EmptyString => EmptyString
  | String c s' =>
      let r := rstrip s' in
      if String.eqb r EmptyString && is_space c then EmptyString else String c r
  end.

Definition strip (s : string) : string := rstrip (lstrip s).

Definition is_digit (c : ascii) : bool :=
  let n := nat_of_ascii c in ((48 <=? n) && (n <=? 57))%nat.

(** The value of a run of decimal digits in which single underscores may
    stand between two digits; [after_digit] tells whether the character
    before was a digit. *)
Fixpoint digits_value (after_digit : bool) (acc : Z) (s : string) : option Z :=
  match s with
  | EmptyString => if after_digit then Some acc else None
  | String c s' =>
      if is_digit c
      then digits_value true (10 * acc + (Z.of_nat (nat_of_ascii c) - 48)) s'
      else if Ascii.eqb c "_" && after_digit
           then digits_value false acc s'
           else None
  end.

(** [int(s)]: surrounding white space, an optional sign, decimal digits
    grouped by single underscores. *)
Definition int (s : string) : result Z :=
  let t := strip s in
  let '(sign, body) :=
    match t with
    | String "-" r => (-1, r)
    | String "+" r => (1, r)
    | _ => (1, t)
    end in
  match digits_value false 0 body with
  | Some v => Ok (sign * v)
  | None => Raise (ValueError "invalid literal for int()")
  end.

(** [str(b)] for a bytes object [b] (its [repr]): the letter b and the
    bytes between quotes; the quote and the backslash are escaped, tab, line
    feed and carriage return are written with their letter, every other
    byte outside the printable ASCII range as a two-digit hexadecimal
    escape.  The quote is the single one unless the bytes hold a single
    quote and no double quote. *)
Definition hex_digit (n : nat) : ascii :=
  match String.get n "0123456789abcdef" with
  | Some c => c
  | None => "0"%char
  end.

Definition repr_byte (quote c : ascii) : string :=
  let n := nat_of_ascii c in
  if Ascii.eqb c quote || Ascii.eqb c "\" then String "\" (String c EmptyString)
  else if (n =? 9)%nat then "\t"
  else if (n =? 10)%nat then "\n"
  else if (n =? 13)%nat then "\r"
  else if ((n <? 32) || (127 <=? n))%nat
       then String "\" (String "x" (String (hex_digit (n / 16))
              (String (hex_digit (n mod 16)) EmptyString)))
       else String c EmptyString.

Fixpoint repr_bytes (quote : ascii) (b : string) : string :=
  match b with
  | EmptyString => EmptyString
  | String c b' => repr_byte quote c ++ repr_bytes quote b'
  end.

Definition bytes_repr (b : string) : string :=
  let quote :=
    if contains "'" b && negb (contains (String DQ EmptyString) b)
    then DQ else "'"%char in
  String "b" (String quote (repr_bytes quote b ++ String quote EmptyString)).

(** [str(n)] for an integer. *)
Definition str_of_int (n : Z) : string := NilEmpty.string_of_int (Z.to_int n).

(** [str(x)] for a value that is a string or [None]. *)
Definition str_of_optional (x : option string) : string :=
  match x with Some s => s | None => "None" end.

(** [s] occurs in [t]. *)
Definition occurs_in (s t : string) : Prop := exists a b, t = a ++ s ++ b.

End PyStr.

(** ** [xml.etree.ElementTree]

    An element carries its tag, its attribute dictionary, the text that
    precedes its first child ([None] when there is none) and its children in
    document order.  The adapter never reads the tail text of an element, so
    it is not kept. *)

Module ElementTree.

Import PyStr.

#[warnings="-register-all"] Inductive Element : Type :=
  | Elem (tag : string) (attrib : gmap string string) (text : option string)
         (children : list Element).

Definition tag (e : Element) : string := let 'Elem t _ _ _ := e in t.
Definition attrib (e : Element) : gmap string string := let 'Elem _ a _ _ := e in a.
Definition text (e : Element) : option string := let 'Elem _ _ x _ := e in x.
Definition children (e : Element) : list Element := let 'Elem _ _ _ c := e in c.

(** [elem.attrib[key]] *)
Definition getitem (e : Element) (key : string) : result string :=
  match attrib e !! key with
  | Some v => Ok v
  | None => Raise (KeyError key)
  end.

(** [elem.findall(name)] for a plain tag name: the children of [elem] with
    that tag, in document order. *)
Definition findall (name : string) (e : Element) : list Element :=
  filter (fun c => tag c = name) (children e).

(** [elem.text = value] *)
Definition set_text (e : Element) (value : string) : Element :=
  let 'Elem t a _ c := e in Elem t a (Some value) c.

(** *** A reference reader

    The worked examples need the element tree of a concrete text.  The
    reader below covers start, end and empty-element tags, attributes in
    single or double quotes, character data, the five predefined entities,
    character references (up to 255, the alphabet of the strings here),
    CDATA sections, comments, processing instructions and the XML
    declaration.  It answers [None] where the text is not well formed;
    document type declarations are not covered. *)

(** The characters a document may hold: tab, line feed, carriage return and
    everything from the space on. *)
Definition is_xml_char (c : ascii) : bool :=
  let n := nat_of_ascii c in
  ((n =? 9) || (n =? 10) || (n =? 13) || (32 <=? n))%nat.

Fixpoint all_xml_chars (s : string) : bool :=
  match s with
  | EmptyString => true
  | String c s' => is_xml_char c && all_xml_chars s'
  end.

Definition is_xml_space (c : ascii) : bool :=
  let n := nat_of_ascii c in ((n =? 32) || (n =? 9) || (n =? 10) || (n =? 13))%nat.

Definition is_name_start (c : ascii) : bool :=
  let n := nat_of_ascii c in
  (((65 <=? n) && (n <=? 90)) || ((97 <=? n) && (n <=? 122)) ||
   (n =? 95) || (n =? 58) || (128 <=? n))%nat.

Definition is_name_char (c : ascii) : bool :=
  let n := nat_of_ascii c in
  (is_name_start c || is_digit c || (n =? 45) || (n =? 46))%nat.

Definition skip_space (s : string) : string := snd (span is_xml_space s).

Definition read_name (s : string) : option (string * string) :=
  match s with
  | String c _ => if is_name_start c then Some (span is_name_char s) else None
  | EmptyString => None
  end.

Definition is_hex_digit (c : ascii) : bool :=
  let n := nat_of_ascii c in
  (is_digit c || ((65 <=? n) && (n <=? 70)) || ((97 <=? n) && (n <=? 102)))%nat.

Definition hex_value (c : ascii) : Z :=
  let n := Z.of_nat (nat_of_ascii c) in
  if is_digit c then n - 48 else if n <=? 70 then n - 55 else n - 87.

Fixpoint number_value (base acc : Z) (digits : string) : Z :=
  match digits with
  | EmptyString => acc
  | String c ds => number_value base (base * acc + hex_value c) ds
  end.

(** A character reference; [s] starts after the ampersand and the hash. *)
Definition read_char_ref (s : string) : option (ascii * string) :=
  let '(base, (digits, r)) :=
    match s with
    | String "x" s' => (16, span is_hex_digit s')
    | _ => (10, span is_digit s)
    end in
  match digits, r with
  | String _ _, String ";" r' =>
      let v := number_value base 0 digits in
      let c := ascii_of_nat (Z.to_nat v) in
      if (v <? 256) && is_xml_char c then Some (c, r') else None
  | _, _ => None
  end.

(** The character a reference stands for; [s] starts after the ampersand. *)
Definition read_entity (s : string) : option (ascii * string) :=
  match strip_prefix "#" s with Some r => read_char_ref r | None =>
  match strip_prefix "lt;" s with Some r => Some ("<"%char, r) | None =>
  match strip_prefix "gt;" s with Some r => Some (">"%char, r) | None =>
  match strip_prefix "amp;" s with Some r => Some ("&"%char, r) | None =>
  match strip_prefix "quot;" s with Some r => Some (DQ, r) | None =>
  match strip_prefix "apos;" s with Some r => Some ("'"%char, r) | None =>
  None end end end end end end.

(** The body of a comment holds no double hyphen and does not end in a
    hyphen; a processing instruction names a target other than xml. *)
Definition comment_ok (body : string) : bool :=
  all_xml_chars body && negb (contains "--" (body ++ "-")).

Definition lower (c : ascii) : ascii :=
  let n := nat_of_ascii c in
  if ((65 <=? n) && (n <=? 90))%nat then ascii_of_nat (n + 32) else c.

Fixpoint lower_string (s : string) : string :=
  match s with
  | EmptyString => EmptyString
  | String c s' => String (lower c) (lower_string s')
  end.

Definition instruction_ok (body : string) : bool :=
  match read_name body with
  | Some (target, _) =>
      all_xml_chars body && negb (String.eqb (lower_string target) "xml")
  | None => false
  end.

(** An attribute value: no [<], references replaced, white space normalised. *)
Fixpoint attr_value (n : nat) (s : string) : option string :=
  match n with
  | O => match s with EmptyString => Some EmptyString | _ => None end
  | S n' =>
      match s with
      | EmptyString => Some EmptyString
      | String "&" s' =>
          '(c, r) ← read_entity s'; String c <$> attr_value n' r
      | String "<" _ => None
      | String c s' =>
          if is_xml_char c
          then String (if is_xml_space c then " "%char else c)
                 <$> attr_value n' s'
          else None
      end
  end.

(** The attributes of a tag up to its closing [>] or [/>]; the flag says
    whether the tag closed itself. *)
Fixpoint read_attrs (n : nat) (s : string) (acc : gmap string string)
  : option (gmap string string * bool * string) :=
  match n with
  | O => None
  | S n' =>
      let s1 := skip_space s in
      match strip_prefix "/>" s1, strip_prefix ">" s1 with
      | Some r, _ => Some (acc, true, r)
      | None, Some r => Some (acc, false, r)
      | None, None =>
          if (String.length s1 <? String.length s)%nat then
            '(key, s2) ← read_name s1;
            s3 ← strip_prefix "=" (skip_space s2);
            match skip_space s3 with
            | String q s4 =>
                if Ascii.eqb q DQ || Ascii.eqb q "'" then
                  '(raw, s5) ← partition (String q EmptyString) s4;
                  value ← attr_value (String.length raw) raw;
                  match acc !! key with
                  | Some _ => None
                  | None => read_attrs n' s5 (<[key := value]> acc)
                  end
                else None
            | EmptyString => None
            end
          else None
      end
  end.

Definition text_of (data : string) : option string :=
  if String.eqb data EmptyString then None else Some data.

(** [read_element] starts after the [<] of a start tag; [read_content] reads
    up to and including the [</] of the enclosing element, collecting the
    character data seen before the first child and the children (latest
    first). *)
Fixpoint read_element (n : nat) (s : string) : option (Element * string) :=
  match n with
  | O => None
  | S n' =>
      '(name, s1) ← read_name s;
      '(attrs, closed, s2) ← read_attrs (S (String.length s1)) s1 ∅;
      if closed : bool then Some (Elem name attrs None [], s2)
      else
        '(data, kids, s3) ← read_content n' s2 EmptyString [];
        '(name', s4) ← read_name s3;
        if String.eqb name' name then
          s5 ← strip_prefix ">" (skip_space s4);
          Some (Elem name attrs (text_of data) (rev kids), s5)
        else None
  end
with read_content (n : nat) (s : string) (data : string) (kids : list Element)
  : option (string * list Element * string) :=
  match n with
  | O => None
  | S n' =>
      let more (d : string) :=
        match kids with [] => data ++ d | _ => data end in
      match strip_prefix "</" s with Some r => Some (data, kids, r) | None =>
      match strip_prefix "<![CDATA[" s with
      | Some r =>
          '(d, r') ← partition "]]>" r;
          if all_xml_chars d then read_content n' r' (more d) kids else None
      | None =>
      match strip_prefix "<!--" s with
      | Some r =>
          '(body, r') ← partition "-->" r;
          if comment_ok body then read_content n' r' data kids else None
      | None =>
      match strip_prefix "<?" s with
      | Some r =>
          '(body, r') ← partition "?>" r;
          if instruction_ok body then read_content n' r' data kids else None
      | None =>
      match strip_prefix "]]>" s with Some _ => None | None =>
      match s with
      | String "<" r =>
          '(kid, r') ← read_element n' r; read_content n' r' data (kid :: kids)
      | String "&" r =>
          '(c, r') ← read_entity r;
          read_content n' r' (more (String c EmptyString)) kids
      | String c r =>
          if is_xml_char c
          then read_content n' r (more (String c EmptyString)) kids
          else None
      | EmptyString => None
      end end end end end end
  end.

(** White space, comments and processing instructions around the root. *)
Fixpoint skip_misc (n : nat) (s : string) : option string :=
  match n with
  | O => None
  | S n' =>
      let s1 := skip_space s in
      match strip_prefix "<?" s1 with
      | Some r =>
          '(body, r') ← partition "?>" r;
          if instruction_ok body then skip_misc n' r' else None
      | None =>
          match strip_prefix "<!--" s1 with
          | Some r =>
              '(body, r') ← partition "-->" r;
              if comment_ok body then skip_misc n' r' else None
          | None => Some s1
          end
      end
  end.

(** The XML declaration, allowed at the very start only. *)
Definition skip_declaration (s : string) : option string :=
  match strip_prefix "<?xml" s with
  | Some (String c r as after) =>
      if is_xml_space c then
        '(body, r') ← partition "?>" after;
        if all_xml_chars body then Some r' else None
      else Some s
  | _ => Some s
  end.

Definition read_document (s : string) : option Element :=
  let n := S (String.length s) in
  s0 ← skip_declaration s;
  s1 ← skip_misc n s0;
  s2 ← strip_prefix "<" s1;
  '(root, s3) ← read_element (2 * n) s2;
  s4 ← skip_misc n s3;
  match s4 with EmptyString => Some root | _ => None end.

(** [ElementTree.fromstring(text)] *)
Definition fromstring (s : string) : result Element :=
  match read_document s with
  | Some root => Ok root
  | None => Raise ParseError
  end.

End ElementTree.


(** ** [os.path] (POSIX flavour) *)

Module os_path.

Import PyStr.

(** [os.path.basename(p)]: [p[p.rfind('/') + 1:]] *)
Definition basename (p : string) : string :=
  let i := rfind "/" p + 1 in
  slice_from i p.

(** The loop of [genericpath._splitext] that skips leading dots: is there a
    character other than the dot among the [n] characters of [p] from
    [filenameIndex] on? *)
Fixpoint has_non_dot (n : nat) (filenameIndex : Z) (p : string) : bool :=
  match n with
  | O => false
  | S n' =>
      match String.get (Z.to_nat filenameIndex) p with
      | Some c =>
          if Ascii.eqb c "." then has_non_dot n' (filenameIndex + 1) p else true
      | None => true
      end
  end.

(** [os.path.splitext(p)]: the extension starts at the last dot of the last
    path component, unless that component has only dots before it. *)
Definition splitext (p : string) : string * string :=
  let sepIndex := rfind "/" p in
  let dotIndex := rfind "." p in
  if (sepIndex <? dotIndex)
     && has_non_dot (Z.to_nat (dotIndex - (sepIndex + 1))) (sepIndex + 1) p
  then (slice_to dotIndex p, slice_from dotIndex p)
  else (p, EmptyString).

(** [os.path.join(a, b)] *)
Definition join (a b : string) : string :=
  if startswith "/" b then b
  else if String.eqb a EmptyString || (rfind "/" a =? Z.of_nat (String.length a) - 1)
       then a ++ b
       else a ++ "/" ++ b.

End os_path.

(** ** The operating system seen by one call *)

Record Completed : Type := {
  returncode : Z;       (* p.returncode *)
  stdout : string       (* the bytes captured from the child, one per character *)
}.

Record OS : Type := {
  (* subprocess.check_output(args, stderr=STDOUT, universal_newlines=True) *)
  check_output : list string -> result string;
  (* subprocess.Popen(args, ...) followed by p.communicate() *)
  popen : list string -> result Completed;
  (* the document ElementTree.parse(name) is given once the child has
     finished, None if the file cannot be opened *)
  read : string -> option string;
  (* io.open(name).read() once the child has finished: the text of the file,
     IOError if it cannot be opened, UnicodeDecodeError if it is not text *)
  read_text : string -> result string;
  (* tempfile.mkdtemp() and tempfile.mkstemp(suffix=...)[1] *)
  mkdtemp : string;
  mkstemp : string -> string
}.

(** [try: body except classes: handler] *)
Definition try_except {A : Type} (body : result A) (classes : exn -> bool)
    (handler : result A) : result A :=
  match body with
  | Ok a => Ok a
  | Raise e => if classes e then handler else Raise e
  end.

Definition is_CalledProcessError (e : exn) : bool :=
  match e with CalledProcessError _ => true | _ => false end.

Definition is_OSError (e : exn) : bool :=
  match e with OSError => true | IOError => true | _ => false end.

(** ** [class BoostTestFailure] *)

Record BoostTestFailure : Type := {
  filename : string;
  linenum : Z;
  lines : list string
}.

(** [BoostTestFailure(filename, linenum, contents)]; [contents] may be
    [None], which has no [splitlines]. *)
Definition BoostTestFailure_init (filename : string) (linenum : Z)
    (contents : option string) : result BoostTestFailure :=
  match contents with
  | Some c =>
      Ok {| filename := filename; linenum := linenum;
            lines := PyStr.splitlines c |}
  | None =>
      Raise (AttributeError "'NoneType' object has no attribute 'splitlines'")
  end.

(** [BoostTestFailure(x)]: [__init__] has three required parameters, so the
    call with a single argument raises before the body runs. *)
Definition BoostTestFailure_init_1 (x : option string) : result BoostTestFailure :=
  Raise (TypeError "__init__() missing 2 required positional arguments: 'linenum' and 'contents'").

Definition get_file_reference (f : BoostTestFailure) : string * Z :=
  (filename f, linenum f).

(** [[f(x) for x in xs]] where [f] may raise. *)
Fixpoint comprehension {A B : Type} (f : A -> result B) (xs : list A)
  : result (list B) :=
  match xs with
  | [] => Ok []
  | x :: xs' => do y <- f x; do ys <- comprehension f xs'; Ok (y :: ys)
  end.

(** One entry of the list built by [junit_xml.parse]:
    [(test_suite_name + '.' + test_name, failures, skipped)]. *)
Definition TestTuple : Type := string * list (option string) * bool.

(** What a run hands back to its caller: [None], a list of failures, or the
    list of tuples of the JUnit reader. *)
Inductive RunValue : Type :=
  | VNone
  | VFailures (failures : list BoostTestFailure)
  | VResults (results : list TestTuple).

(** ** [pytest_cpp/junit_xml.py] *)

Module junit_xml.

Import PyStr ElementTree.

Section Reader.

(** [ElementTree.fromstring]: any reader of XML text. *)
Variable fromstring : string -> result Element.

Variable os : OS.

(** [ElementTree.parse(filename)]: open the file and read the document. *)
Definition ElementTree_parse (filename : string) : result Element :=
  match read os filename with
  | Some content => fromstring content
  | None => Raise IOError
  end.

(** The body of [for test_case in test_suite.findall('testcase')]. *)
Definition parse_test_case (test_suite_name : string)
    (result_ : list TestTuple) (test_case : Element) : result (list TestTuple) :=
  do test_name <- getitem test_case "name";
  let failures := map text (findall "failure" test_case) in
  do status <- getitem test_case "status";
  let skipped := String.eqb status "notrun" in
  Ok (app result_ [(test_suite_name ++ "." ++ test_name, failures, skipped)]).

(** The body of [for test_suite in root.findall('testsuite')]. *)
Definition parse_test_suite (result_ : list TestTuple) (test_suite : Element)
  : result (list TestTuple) :=
  do test_suite_name <- getitem test_suite "name";
  rfold (parse_test_case test_suite_name) (findall "testcase" test_suite) result_.

Definition parse (filename : string) : result (list TestTuple) :=
  do root <- ElementTree_parse filename;
  rfold parse_test_suite (findall "testsuite" root) [].

(** [junit_xml.<name>]: the module defines [parse] and nothing else that can
    be called. *)
Definition getattr (name : string)
  : result (string -> result (list TestTuple)) :=
  if String.eqb name "parse" then Ok parse
  else Raise (AttributeError ("module 'pytest_cpp.junit_xml' has no attribute '" ++ name ++ "'")).

End Reader.

End junit_xml.

(** ** [class BoostTestFacade] *)

Module BoostTestFacade.

Import PyStr ElementTree.

(** [_JUNIT_LOG_FORMAT], a multi-line pattern searched in the help text:
    some line holds [--log_format=<], later [JUNIT], later [>].  What stands
    between them is arbitrary within the line (the dot of [re] matches every
    character but the line feed). *)
Definition _JUNIT_LOG_FORMAT_line (line : string) : bool :=
  match partition "--log_format=<" line with
  | Some (_, r1) =>
      match partition "JUNIT" r1 with
      | Some (_, r2) => contains ">" r2
      | None => false
      end
  | None => false
  end.

Definition _JUNIT_LOG_FORMAT_search (output : string) : bool :=
  existsb _JUNIT_LOG_FORMAT_line (split (String LF EmptyString) output).

(** [_LINE_ENDING], the multi-line pattern of a whole line: [finditer]
    yields the lines of the text, cut at line feeds. *)
Definition get_lines_iter (text : string) : list string :=
  split (String LF EmptyString) text.

(** [_TEST_CASE_PATTERN] matched at the start of a line.  Group [indent] is
    the leading white space, group [name] the longest run of characters that
    are neither white space nor the star; the name is not empty and a star
    follows it. *)
Definition _TEST_CASE_PATTERN_match (line : string) : option (string * string) :=
  let '(indent, r1) := span is_space line in
  let '(name, r2) := span (fun c => negb (Ascii.eqb c "*" || is_space c)) r1 in
  match name, r2 with
  | String _ _, String "*" _ => Some (indent, name)
  | _, _ => None
  end.

Record TestNode : Type := { name : string; indent : nat }.

(** The variables of the loop of [_list_tests]. *)
Record ListState : Type := {
  prev_indent : nat;
  tests : list string;
  test_names_branch : list TestNode
}.

Definition get_test_name (test_names_branch : list TestNode) : string :=
  join "/" (map name test_names_branch).

(** [while branch and branch[-1].indent >= indent: branch.pop()], on the
    branch read from its last entry. *)
Fixpoint pop_from_top (indent_ : nat) (top_first : list TestNode)
  : list TestNode :=
  match top_first with
  | t :: below =>
      if (indent_ <=? indent t)%nat then pop_from_top indent_ below
      else top_first
  | [] => []
  end.

Definition pop_closed (indent_ : nat) (branch : list TestNode) : list TestNode :=
  rev (pop_from_top indent_ (rev branch)).

(** The body of [for line in get_lines_iter(output)]. *)
Definition list_step (st : ListState) (line : string) : ListState :=
  match _TEST_CASE_PATTERN_match line with
  | None => st
  | Some (indent_group, test_name) =>
      let indent_ := String.length indent_group in
      let test_node := {| name := test_name; indent := indent_ |} in
      let '(tests1, branch1) :=
        if (indent_ <=? prev_indent st)%nat then
          let full_test := get_test_name (test_names_branch st) in
          (if String.eqb full_test EmptyString then tests st
           else (tests st ++ [full_test])%list,
           pop_closed indent_ (test_names_branch st))
        else (tests st, test_names_branch st) in
      {| prev_indent := indent_;
         tests := tests1;
         test_names_branch := (branch1 ++ [test_node])%list |}
  end.

(** [_list_tests] after the listing has been captured. *)
Definition list_tests_of_output (output : string) : list string :=
  let st := fold_left list_step (get_lines_iter output)
              {| prev_indent := 0; tests := []; test_names_branch := [] |} in
  match test_names_branch st with
  | [] => tests st
  | _ => (tests st ++ [get_test_name (test_names_branch st)])%list
  end.

Definition _list_tests (os : OS) (executable : string) : result (list string) :=
  do output <- check_output os [executable; "--list_content=HRF"];
  Ok (list_tests_of_output output).

Definition _list_tests_fallback (executable : string) : list string :=
  [os_path.basename (fst (os_path.splitext executable))].

(** [list_tests(self, executable)] *)
Definition list_tests (executable : string) : list string :=
  _list_tests_fallback executable.

Section Runner.

Variable fromstring : string -> result Element.

Variable os : OS.

(** The loop of [_parse_log] over the collected elements. *)
Definition parse_log_elem (result_ : list BoostTestFailure) (elem : Element)
  : result (list BoostTestFailure) :=
  do filename <- getitem elem "file";
  do line <- getitem elem "line";
  do linenum <- int line;
  do failure <- BoostTestFailure_init filename linenum (text elem);
  Ok (result_ ++ [failure])%list.

Definition FatalError_close : string := "</FatalError>".

Definition _parse_log (log : option string) : result (list BoostTestFailure) :=
  match log with
  | None =>
      Raise (AttributeError "'NoneType' object has no attribute 'startswith'")
  | Some log =>
      do (parsed_elements, log) <-
        (if startswith "<FatalError" log then
           match split FatalError_close log with
           | [fatal; log'] =>
               let fatal := fatal ++ FatalError_close in
               do fatal_root <- fromstring fatal;
               let fatal_root :=
                 set_text fatal_root
                   ("Fatal Error: " ++ str_of_optional (text fatal_root)) in
               Ok ([fatal_root], log')
           | [] | [_] => Raise (ValueError "not enough values to unpack")
           | _ => Raise (ValueError "too many values to unpack")
           end
         else Ok ([], log));
      do log_root <- fromstring log;
      let parsed_elements :=
        (parsed_elements ++ findall "Exception" log_root
                         ++ findall "Error" log_root
                         ++ findall "FatalError" log_root)%list in
      rfold parse_log_elem parsed_elements []
  end.

(** [read_file(name)]: a file that cannot be opened reads as [None]; only
    IOError is caught, so the error of a file that cannot be decoded goes
    on to the caller. *)
Definition read_file (name : string) : result (option string) :=
  match read_text os name with
  | Ok content => Ok (Some content)
  | Raise e => if is_OSError e then Ok None else Raise e
  end.

Definition acceptable_returncode (code : Z) : bool :=
  (code =? 0) || (code =? 200) || (code =? 201).

(** The text of the failure for an unexpected exit status. *)
Definition internal_error_msg (executable test_id : string)
    (p : Completed) (log report : option string) : string :=
  "Internal Error: calling " ++ executable ++
  " for test " ++ test_id ++
  " failed (returncode=" ++ str_of_int (returncode p) ++ "):" ++ String LF
  ("output:" ++ bytes_repr (stdout p) ++ String LF
  ("log:" ++ str_of_optional log ++ String LF
  ("report:" ++ str_of_optional report))).

Definition is_fatal_report (report : option string) : bool :=
  match report with
  | Some r =>
      startswith "Boost.Test framework internal error: " r
      || startswith "Test setup error: " r
  | None => false
  end.

Definition _run_tests_fallback (executable test_id : string)
    (test_args : list string) : result RunValue :=
  let temp_dir := mkdtemp os in
  let log_xml := os_path.join temp_dir "log.xml" in
  let report_xml := os_path.join temp_dir "report.xml" in
  let args := app [executable; "--output_format=XML";
                   "--log_sink=" ++ log_xml;
                   "--report_sink=" ++ report_xml] test_args in
  do p <- popen os args;
  do log <- read_file log_xml;
  do report <- read_file report_xml;
  if negb (acceptable_returncode (returncode p)) then
    do failure <- BoostTestFailure_init "<no source file>" 0
                    (Some (internal_error_msg executable test_id p log report));
    Ok (VFailures [failure])
  else if is_fatal_report report then
    do failure <- BoostTestFailure_init "unknown location" 0 report;
    Ok (VFailures [failure])
  else
    do results <- _parse_log log;
    match results with
    | _ :: _ => Ok (VFailures results)
    | [] => Ok VNone
    end.

(** The loop of [_run_tests] over the tuples: [Some] when an iteration
    leaves the function, [None] when the loop runs to its end. *)
Fixpoint scan_results (test_id : string) (results : list TestTuple)
  : option (result RunValue) :=
  match results with
  | [] => None
  | (executed_test_id, failures, skipped) :: rest =>
      if String.eqb executed_test_id test_id then
        match failures with
        | _ :: _ =>
            Some (do fs <- comprehension BoostTestFailure_init_1 failures;
                  Ok (VFailures fs))
        | [] =>
            if skipped : bool then Some (Raise SkipException)   (* pytest.skip() *)
            else Some (Ok VNone)
        end
      else scan_results test_id rest
  end.

(** [_run_tests] from the [for] loop on, given the tuples. *)
Definition run_tests_on (test_id : string) (results : list TestTuple)
  : result RunValue :=
  match scan_results test_id results with
  | Some outcome => outcome
  | None =>
      match results with
      | _ :: _ => Ok (VResults results)
      | [] => Ok VNone
      end
  end.

Definition _run_tests (executable test_id : string) (test_args : list string)
  : result RunValue :=
  let log_xml := mkstemp os "log.xml" in
  let args := app [executable; "--log_format=JUNIT";
                   "--log_sink=" ++ log_xml] test_args in
  do p <- popen os args;
  do get_failures <- junit_xml.getattr fromstring os "get_failures";
  do results <- get_failures log_xml;
  run_tests_on test_id results.

(** [run_test(self, executable, test_id, test_args)] *)
Definition run_test (executable test_id : string) (test_args : list string)
  : result RunValue :=
  try_except
    (do output <- check_output os [executable; "--help"];
     if _JUNIT_LOG_FORMAT_search output
     then _run_tests executable test_id test_args
     else _run_tests_fallback executable test_id test_args)
    is_CalledProcessError
    (_run_tests_fallback executable test_id test_args).

(** [is_test_suite(cls, executable)] *)
Definition is_test_suite (executable : string) : result bool :=
  match check_output os [executable; "--help"] with
  | Raise e =>
      if is_CalledProcessError e || is_OSError e then Ok false else Raise e
  | Ok output =>
      Ok (contains "--output_format" output && contains "log_format" output)
  end.

End Runner.

(** [class Facade]: the two functions chosen for an executable. *)
Inductive list_tests_fn : Type := use_list_tests_fallback | use_list_tests.
Inductive run_test_fn : Type := use_run_tests_fallback | use_run_tests.

Record Facade : Type := {
  _list_test_fn : list_tests_fn;
  _run_test_fn : run_test_fn
}.

Definition Facade_list_tests (os : OS) (self : Facade) (executable : string)
  : result (list string) :=
  match _list_test_fn self with
  | use_list_tests_fallback => Ok (_list_tests_fallback executable)
  | use_list_tests => _list_tests os executable
  end.

Definition Facade_run_test (fromstring : string -> result Element) (os : OS)
    (self : Facade) (executable test_id : string) (test_args : list string)
  : result RunValue :=
  match _run_test_fn self with
  | use_run_tests_fallback =>
      _run_tests_fallback fromstring os executable test_id test_args
  | use_run_tests => _run_tests fromstring os executable test_id test_args
  end.

(** [create_facade(cls, executable)] *)
Definition create_facade (os : OS) (executable : string) : result Facade :=
  try_except
    (do output <- check_output os [executable; "--help"];
     let list_test_fn := use_list_tests_fallback in
     let run_test_fn :=
       if _JUNIT_LOG_FORMAT_search output then use_run_tests
       else use_run_tests_fallback in
     Ok {| _list_test_fn := list_test_fn; _run_test_fn := run_test_fn |})
    is_CalledProcessError
    (Ok {| _list_test_fn := use_list_tests_fallback;
           _run_test_fn := use_run_tests_fallback |}).

End BoostTestFacade.

(** * Specification-side definitions and sample inputs *)

Module Samples.

Import PyStr ElementTree BoostTestFacade.

(** The identifier the fallback listing promises: the base name of the
    executable, with its extension removed. *)
Definition spec_fallback_identifier (executable : string) : string :=
  fst (os_path.splitext (os_path.basename executable)).

(** What reading a file as text gives when every file is text. *)
Definition text_of_files (files : string -> option string) (name : string)
  : result string :=
  match files name with
  | Some content => Ok content
  | None => Raise IOError
  end.

(** An executable that runs, writes the bytes [out], exits with [code] and
    leaves the text files given by [files]; its help text is [help]. *)
Definition os_child (help : result string) (code : Z) (out : string)
    (files : string -> option string) : OS :=
  {| check_output := fun _ => help;
     popen := fun _ => Ok {| returncode := code; stdout := out |};
     read := files;
     read_text := text_of_files files;
     mkdtemp := "/tmp/tmpdir";
     mkstemp := fun suffix => "/tmp/tmp" ++ suffix |}.

Definition no_files : string -> option string := fun _ => None.

Definition newline : string := String LF EmptyString.



Definition one_file (path content : string) : string -> option string :=
  fun name => if String.eqb name path then Some content else None.

(** [s] between double quotes. *)
Definition quoted (s : string) : string := String DQ (s ++ String DQ EmptyString).

(** The log of the specification: a FatalError fragment without attributes
    in front of a TestLog document with one Exception. *)
Definition log_fatal_plain : string :=
  "<FatalError>boom</FatalError><TestLog><Exception file=" ++ quoted "a.cpp"
  ++ " line=" ++ quoted "5" ++ ">bad</Exception></TestLog>".

(** The same log, its FatalError fragment carrying a file and a line. *)
Definition log_fatal_located : string :=
  "<FatalError file=" ++ quoted "f.cpp" ++ " line=" ++ quoted "3"
  ++ ">boom</FatalError><TestLog><Exception file=" ++ quoted "a.cpp"
  ++ " line=" ++ quoted "5" ++ ">bad</Exception></TestLog>".

(** A log without any report of failure. *)
Definition log_clean : string := "<TestLog></TestLog>".

(** A JUnit document: suite S with the cases t1 (only a name) and t2
    (status notrun). *)
Definition junit_S_plain : string :=
  "<testsuites><testsuite name=" ++ quoted "S" ++ "><testcase name="
  ++ quoted "t1" ++ "/><testcase name=" ++ quoted "t2" ++ " status="
  ++ quoted "notrun" ++ "/></testsuite></testsuites>".

(** The same document, t1 carrying the status run. *)
Definition junit_S_status : string :=
  "<testsuites><testsuite name=" ++ quoted "S" ++ "><testcase name="
  ++ quoted "t1" ++ " status=" ++ quoted "run" ++ "/><testcase name="
  ++ quoted "t2" ++ " status=" ++ quoted "notrun"
  ++ "/></testsuite></testsuites>".

(** Help text that advertises the JUNIT log format. *)
Definition help_junit : string :=
  "  --log_format=<HRF|CLF|XML|JUNIT>" ++ newline ++ "  --output_format=<HRF|CLF|XML>".

(** An executable with that help text that writes [doc] to the log file of
    the JUnit run. *)
Definition os_junit (doc : string) : OS :=
  os_child (Ok help_junit) 0 EmptyString (one_file "/tmp/tmplog.xml" doc).

(** An executable that cannot be started. *)
Definition os_spawn_failure : OS :=
  {| check_output := fun _ => Raise OSError;
     popen := fun _ => Raise OSError;
     read := no_files;
     read_text := text_of_files no_files;
     mkdtemp := "/tmp/tmpdir";
     mkstemp := fun suffix => "/tmp/tmp" ++ suffix |}.

(** What a run may hand back: [None] or a list that is not empty. *)
Definition outcome_ok (r : result RunValue) : bool :=
  match r with
  | Ok (VFailures []) | Ok (VResults []) => false
  | _ => true
  end.

(** The first tuple for [test_id], the one the loop of [_run_tests] acts on. *)
Definition first_for (test_id : string) (results : list TestTuple)
  : option TestTuple :=
  List.find (fun t => String.eqb (fst (fst t)) test_id) results.

End Samples.

(** ** The rest of [class BoostTestFailure] *)

(** [get_lines(self)]: every line with the markup (red, bold). *)
Definition get_lines (f : BoostTestFailure) : list (string * (string * string)) :=
  map (fun x => (x, ("red", "bold"))) (lines f).

(** * Relations used to state what the readers return *)

Module Shapes.

Import PyStr ElementTree BoostTestFacade.

(** The failure [r] reports the element [elem] of a native log: its file,
    its line read as an integer, and the lines of its text. *)
Definition reports (elem : Element) (r : BoostTestFailure) : Prop :=
  attrib elem !! "file" = Some (filename r)
  /\ (exists line, attrib elem !! "line" = Some line /\ int line = Ok (linenum r))
  /\ (exists t, text elem = Some t /\ lines r = splitlines t).

(** The elements of a native log that are turned into failures, in the
    order of the records. *)
Definition reported_elements (log_root : Element) : list Element :=
  (findall "Exception" log_root ++ findall "Error" log_root
   ++ findall "FatalError" log_root)%list.

Definition is_reported_tag (e : Element) : bool :=
  String.eqb (tag e) "Exception" || String.eqb (tag e) "Error"
  || String.eqb (tag e) "FatalError".

(** The test cases of a JUnit document, each with its suite, in document
    order. *)
Definition junit_cases (root : Element) : list (Element * Element) :=
  flat_map (fun suite => map (pair suite) (findall "testcase" suite))
           (findall "testsuite" root).

(** The tuple [t] describes the test case [c] of a suite named
    [suite_name]: the joined name, the texts of the failure children, and
    whether the status is notrun. *)
Definition case_describes (suite_name : string) (c : Element) (t : TestTuple)
  : Prop :=
  exists case_name status,
    attrib c !! "name" = Some case_name
    /\ attrib c !! "status" = Some status
    /\ t = (suite_name ++ "." ++ case_name,
            map text (findall "failure" c),
            String.eqb status "notrun").

Definition describes (sc : Element * Element) (t : TestTuple) : Prop :=
  exists suite_name,
    attrib (fst sc) !! "name" = Some suite_name
    /\ case_describes suite_name (snd sc) t.

Definition named (e : Element) : Prop := is_Some (attrib e !! "name").

(** The groups of the lines that [_TEST_CASE_PATTERN] matches, in order. *)
Definition matched (lines_ : list string) : list (string * string) :=
  omap _TEST_CASE_PATTERN_match lines_.

(** The characters a test name is made of: no star, no white space. *)
Definition name_char (c : ascii) : bool :=
  negb (Ascii.eqb c "*" || is_space c).

Definition node_of (groups : string * string) : TestNode :=
  {| name := snd groups; indent := String.length (fst groups) |}.

(** No character of [s] satisfies [p]. *)
Fixpoint none_of (p : ascii -> bool) (s : string) : Prop :=
  match s with
  | EmptyString => True
  | String c s' => p c = false /\ none_of p s'
  end.

(** Every character of [s] satisfies [p]. *)
Fixpoint all_of (p : ascii -> bool) (s : string) : Prop :=
  match s with
  | EmptyString => True
  | String c s' => p c = true /\ all_of p s'
  end.

(** The indents of a branch grow strictly from its first entry to its last. *)
Fixpoint increasing (branch : list TestNode) : Prop :=
  match branch with
  | [] => True
  | t :: rest =>
      match rest with
      | [] => True
      | u :: _ => (indent t < indent u)%nat /\ increasing rest
      end
  end.

Definition is_dot (c : ascii) : bool := Ascii.eqb c ".".

(** The directory part of a path: nothing, or text ending in a slash. *)
Definition is_dir_part (dir : string) : Prop :=
  dir = EmptyString \/ exists d, dir = d ++ "/".


(** The state in which the loop of [_list_tests] starts. *)
Definition list_init : ListState :=
  {| prev_indent := 0; tests := []; test_names_branch := [] |}.

(** No name on the branch and no identifier found so far is empty. *)
Definition names_ok (st : ListState) : Prop :=
  Forall (fun t => name t <> EmptyString) (test_names_branch st)
  /\ Forall (fun x => x <> EmptyString) (tests st).

(** The branch is a chain and ends at the previous indent. *)
Definition chain_ok (st : ListState) : Prop :=
  increasing (test_names_branch st)
  /\ forall t, last (test_names_branch st) = Some t ->
               indent t = prev_indent st.

End Shapes.

(** * More sample inputs *)

Module MoreSamples.

Import PyStr ElementTree BoostTestFacade Samples.

(** The tree the reference reader builds from [text] (an empty element when
    the text is not well formed). *)
Definition tree_of (text : string) : Element :=
  match fromstring text with
  | Ok root => root
  | Raise _ => Elem EmptyString ∅ None []
  end.

(** A log with one Exception. *)
Definition log_one_exception : string :=
  "<TestLog><Exception file=" ++ quoted "a.cpp" ++ " line=" ++ quoted "5"
  ++ ">bad</Exception></TestLog>".

Definition root_one_exception : Element :=
  Eval vm_compute in tree_of log_one_exception.

(** A log whose Exception has no file attribute. *)
Definition log_no_file : string :=
  "<TestLog><Exception line=" ++ quoted "5" ++ ">bad</Exception></TestLog>".

Definition root_no_file : Element := Eval vm_compute in tree_of log_no_file.

Definition exception_no_file : Element :=
  Eval vm_compute in
    match children root_no_file with
    | e :: _ => e
    | [] => Elem EmptyString ∅ None []
    end.

Definition root_junit_S_status : Element :=
  Eval vm_compute in tree_of junit_S_status.

(** A JUnit document whose root is the testsuite itself. *)
Definition junit_root_suite : string :=
  "<testsuite name=" ++ quoted "S" ++ "><testcase name=" ++ quoted "t1"
  ++ " status=" ++ quoted "run" ++ "/></testsuite>".

Definition root_junit_root_suite : Element :=
  Eval vm_compute in tree_of junit_root_suite.

(** An executable that exits with status 200 and reports a setup error. *)
Definition os_setup_error : OS :=
  os_child (Ok EmptyString) 200 EmptyString
    (one_file "/tmp/tmpdir/report.xml" "Test setup error: no test cases").


(** An executable that exits with status 200, reports a setup error and
    leaves a log that is not text. *)
Definition os_setup_error_undecodable_log : OS :=
  {| check_output := fun _ => Ok EmptyString;
     popen := fun _ => Ok {| returncode := 200; stdout := EmptyString |};
     read := no_files;
     read_text := fun name =>
       if String.eqb name "/tmp/tmpdir/log.xml" then Raise UnicodeDecodeError
       else if String.eqb name "/tmp/tmpdir/report.xml"
            then Ok "Test setup error: no test cases"
            else Raise IOError;
     mkdtemp := "/tmp/tmpdir";
     mkstemp := fun suffix => "/tmp/tmp" ++ suffix |}.


(** Listings: two tests side by side, and one test inside a suite. *)
Definition listing_flat : string := "a*" ++ newline ++ "b*" ++ newline.
Definition listing_nested : string := "A*" ++ newline ++ "  B*" ++ newline.

End MoreSamples.

(** * Properties *)

(** ** Strings *)

Section StringFacts.

Import PyStr.

Lemma append_assoc (a b c : string) : (a ++ b) ++ c = a ++ (b ++ c).
Proof. induction a as [|x a IH]; simpl; [reflexivity | now rewrite IH]. Qed.

Lemma append_empty_r (a : string) : a ++ EmptyString = a.
Proof. induction a as [|x a IH]; simpl; [reflexivity | now rewrite IH]. Qed.

Lemma length_append (a b : string) :
  String.length (a ++ b) = (String.length a + String.length b)%nat.
Proof. induction a as [|x a IH]; simpl; [reflexivity | now rewrite IH]. Qed.

Lemma take_drop (n : nat) (s : string) : take n s ++ drop n s = s.
Proof.
  revert s; induction n as [|n IH]; intros [|c s]; simpl; try reflexivity.
  now rewrite IH.
Qed.

Lemma drop_take (i n : nat) (s : string) :
  drop i (take n s) = take (n - i) (drop i s).
Proof.
  revert n s; induction i as [|i IH]; intros n s.
  - now rewrite Nat.sub_0_r.
  - destruct n as [|n], s as [|c s]; simpl; try reflexivity.
    + now destruct (n - i)%nat.
    + apply IH.
Qed.

Lemma get_drop (i k : nat) (s : string) :
  String.get i (drop k s) = String.get (i + k) s.
Proof.
  revert s; induction k as [|k IH]; intros s.
  - now rewrite Nat.add_0_r.
  - rewrite Nat.add_succ_r. destruct s as [|c s]; simpl; [|apply IH].
    now destruct i.
Qed.





(** [strip_prefix] and [partition] find what they say. *)
Lemma strip_prefix_Some (pre s r : string) :
  strip_prefix pre s = Some r <-> s = pre ++ r.
Proof.
  revert s; induction pre as [|a pre IH]; intros s; simpl.
  - split; [now intros [= ->] | now intros ->].
  - destruct s as [|b s]; [split; discriminate|].
    destruct (Ascii.eqb_spec a b) as [->|Hne].
    + rewrite IH. split; [now intros -> | now intros [= ->]].
    + split; [discriminate | intros [= Hab _]; congruence].
Qed.

Lemma strip_prefix_app (pre r : string) : strip_prefix pre (pre ++ r) = Some r.
Proof. now apply strip_prefix_Some. Qed.

Lemma partition_Some (sep s a b : string) :
  partition sep s = Some (a, b) -> s = a ++ sep ++ b.
Proof.
  revert a; induction s as [|c s IH]; intros a; simpl.
  - destruct (strip_prefix sep EmptyString) as [r|] eqn:E; [|discriminate].
    intros [= <- <-]. now apply strip_prefix_Some in E.
  - destruct (strip_prefix sep (String c s)) as [r|] eqn:E.
    + intros [= <- <-]. now apply strip_prefix_Some in E.
    + destruct (partition sep s) as [[a' b']|]; [|discriminate].
      intros [= <- <-]. simpl. now rewrite (IH a' eq_refl).
Qed.

(** The occurrence found by [partition] is the first one. *)
Lemma partition_first (sep s a b a' b' : string) :
  partition sep s = Some (a, b) -> s = a' ++ sep ++ b' ->
  (String.length a <= String.length a')%nat.
Proof.
  revert a a'; induction s as [|c s IH]; intros a a'; simpl.
  - destruct (strip_prefix sep EmptyString); [|discriminate].
    intros [= <- <-] _. simpl; lia.
  - destruct (strip_prefix sep (String c s)) as [r|] eqn:E.
    + intros [= <- <-] _. simpl; lia.
    + destruct (partition sep s) as [[a1 b1]|] eqn:P; [|discriminate].
      intros [= <- <-] Hs. destruct a' as [|c' a']; simpl in Hs.
      * rewrite Hs, strip_prefix_app in E. discriminate.
      * injection Hs as -> ->. simpl. specialize (IH a1 a' eq_refl eq_refl). lia.
Qed.

Lemma partition_None (sep s : string) :
  partition sep s = None -> ~ occurs_in sep s.
Proof.
  induction s as [|c s IH]; simpl.
  - destruct (strip_prefix sep EmptyString) eqn:E; [discriminate|].
    intros _ (a & b & H). destruct a; simpl in H; [|discriminate].
    rewrite H, strip_prefix_app in E. discriminate.
  - destruct (strip_prefix sep (String c s)) eqn:E; [discriminate|].
    destruct (partition sep s) as [[a1 b1]|]; [discriminate|].
    intros _ (a & b & H). destruct a as [|c' a]; simpl in H.
    + rewrite H, strip_prefix_app in E. discriminate.
    + injection H as -> ->. apply IH; [reflexivity|]. now exists a, b.
Qed.

Lemma partition_occurs (sep s : string) :
  occurs_in sep s -> exists a b, partition sep s = Some (a, b).
Proof.
  intros H. destruct (partition sep s) as [[a b]|] eqn:P; [eauto|].
  now apply partition_None in P.
Qed.

(** Two ways to cut one text: the shorter head is a prefix of the longer. *)
Lemma append_eq_append (u v u' v' : string) :
  u ++ v = u' ++ v' -> (String.length u <= String.length u')%nat ->
  exists x, u' = u ++ x /\ v = x ++ v'.
Proof.
  revert u'; induction u as [|c u IH]; intros u'; simpl.
  - intros -> _. now exists u'.
  - destruct u' as [|c' u']; simpl; [lia|].
    intros [= -> H] Hl. destruct (IH u' H) as (x & -> & ->); [lia|].
    now exists x.
Qed.

End StringFacts.

(** ** Paths *)

Section PathFacts.

Import PyStr os_path.

Lemma rfind_bounds (c : ascii) (s : string) :
  -1 <= rfind c s < Z.of_nat (String.length s).
Proof.
  induction s as [|a s IH]; simpl; [lia|].
  destruct (Z.leb_spec 0 (rfind c s)); [lia|].
  destruct (Ascii.eqb a c); lia.
Qed.

Lemma rfind_drop (c : ascii) (n : nat) (s : string) :
  rfind c (drop n s) =
  if Z.of_nat n <=? rfind c s then rfind c s - Z.of_nat n else -1.
Proof.
  revert s; induction n as [|n IH]; intros s.
  - pose proof (rfind_bounds c s). simpl drop.
    destruct (Z.leb_spec (Z.of_nat 0) (rfind c s)); lia.
  - destruct s as [|a s]; [reflexivity|].
    simpl drop. rewrite IH. simpl rfind.
    pose proof (rfind_bounds c s).
    destruct (Z.leb_spec 0 (rfind c s)).
    + destruct (Z.leb_spec (Z.of_nat n) (rfind c s));
        destruct (Z.leb_spec (Z.of_nat (S n)) (rfind c s + 1)); lia.
    + destruct (Z.leb_spec (Z.of_nat n) (rfind c s)); [lia|].
      destruct (Ascii.eqb a c);
        [destruct (Z.leb_spec (Z.of_nat (S n)) 0)
        |destruct (Z.leb_spec (Z.of_nat (S n)) (-1))]; lia.
Qed.

Lemma rfind_take (c : ascii) (n : nat) (s : string) :
  rfind c s < Z.of_nat n -> rfind c (take n s) = rfind c s.
Proof.
  revert n; induction s as [|a s IH]; intros n H.
  - now destruct n.
  - pose proof (rfind_bounds c (String a s)) as B.
    destruct n as [|n];
      [change (rfind c (take 0 (String a s))) with (-1); lia|].
    simpl in *. pose proof (rfind_bounds c s).
    destruct (Z.leb_spec 0 (rfind c s)).
    + rewrite IH by lia. destruct (Z.leb_spec 0 (rfind c s)); lia.
    + rewrite IH by lia. destruct (Z.leb_spec 0 (rfind c s)); [lia|reflexivity].
Qed.

Lemma has_non_dot_drop (n k : nat) (i : Z) (p : string) :
  0 <= i ->
  has_non_dot n i (drop k p) = has_non_dot n (i + Z.of_nat k) p.
Proof.
  revert i; induction n as [|n IH]; intros i Hi; simpl; [reflexivity|].
  rewrite get_drop.
  replace (Z.to_nat (i + Z.of_nat k)) with (Z.to_nat i + k)%nat by lia.
  destruct (String.get (Z.to_nat i + k) p) as [c|]; [|reflexivity].
  destruct (Ascii.eqb c "."); [|reflexivity].
  rewrite IH by lia. f_equal. lia.
Qed.

(** Removing the extension and taking the last component commute: the
    extension never reaches back over a slash. *)
Lemma basename_splitext (p : string) :
  basename (fst (splitext p)) = fst (splitext (basename p)).
Proof.
  unfold splitext, basename, slice_from, slice_to.
  pose proof (rfind_bounds "/" p) as Hs.
  pose proof (rfind_bounds "." p) as Hd.
  set (sep := rfind "/" p) in *. set (dot := rfind "." p) in *.
  rewrite !rfind_drop. fold sep dot.
  replace (Z.of_nat (Z.to_nat (sep + 1))) with (sep + 1) by lia.
  destruct (Z.leb_spec (sep + 1) sep); [lia|].
  destruct (Z.ltb_spec sep dot) as [Hlt|Hge].
  - destruct (Z.leb_spec (sep + 1) dot); [|lia].
    destruct (Z.ltb_spec (-1) (dot - (sep + 1))); [|lia].
    rewrite has_non_dot_drop by lia.
    replace (Z.to_nat (dot - (sep + 1) - (-1 + 1)))
      with (Z.to_nat (dot - (sep + 1))) by (f_equal; lia).
    replace (-1 + 1 + Z.of_nat (Z.to_nat (sep + 1))) with (sep + 1) by lia.
    destruct (has_non_dot _ _ p); simpl; [|reflexivity].
    rewrite rfind_take by lia. fold sep.
    rewrite drop_take. f_equal. lia.
  - destruct (Z.leb_spec (sep + 1) dot); [lia|]. reflexivity.
Qed.

Lemma rfind_append (c : ascii) (x y : string) :
  rfind c (x ++ y) =
  if 0 <=? rfind c y then Z.of_nat (String.length x) + rfind c y
  else rfind c x.
Proof.
  pose proof (rfind_bounds c y) as Hy.
  induction x as [|a x IH].
  - simpl. destruct (Z.leb_spec 0 (rfind c y)); lia.
  - change (rfind c (String a x ++ y))
      with (let r := rfind c (x ++ y) in
            if 0 <=? r then r + 1 else if Ascii.eqb a c then 0 else -1).
    cbv zeta. rewrite IH.
    destruct (Z.leb_spec 0 (rfind c y)).
    + destruct (Z.leb_spec 0 (Z.of_nat (String.length x) + rfind c y));
        simpl String.length; lia.
    + reflexivity.
Qed.

Lemma rfind_append_none_inv (c : ascii) (x y : string) :
  rfind c x = -1 -> rfind c y = -1 -> rfind c (x ++ y) = -1.
Proof. intros Hx Hy. rewrite rfind_append, Hy. exact Hx. Qed.

Lemma take_app_length (a b : string) : take (String.length a) (a ++ b) = a.
Proof. induction a as [|x a IH]; simpl; [now destruct b | now rewrite IH]. Qed.

Lemma drop_app_length (a b : string) : drop (String.length a) (a ++ b) = b.
Proof. induction a as [|x a IH]; simpl; [reflexivity | exact IH]. Qed.

Lemma get_app_length (a : string) (x : ascii) (b : string) :
  String.get (String.length a) (a ++ String x b) = Some x.
Proof. induction a as [|y a IH]; simpl; [reflexivity | exact IH]. Qed.

Lemma length_take (n : nat) (s : string) :
  (n <= String.length s)%nat -> String.length (take n s) = n.
Proof.
  revert s; induction n as [|n IH]; intros [|x s] H; simpl in *;
    try reflexivity; try lia.
  rewrite IH; [reflexivity | lia].
Qed.

Lemma all_of_take (p : ascii -> bool) (n : nat) (s : string) :
  Shapes.all_of p s -> Shapes.all_of p (take n s).
Proof.
  revert s; induction n as [|n IH]; intros [|x s]; simpl; try tauto.
  intros [Hx Hs]. split; [exact Hx | now apply IH].
Qed.

Lemma all_dots_no_slash (dots : string) :
  Shapes.all_of Shapes.is_dot dots -> rfind "/" dots = -1.
Proof.
  induction dots as [|x dots IH]; simpl; [reflexivity|].
  intros [Hx Hd]. rewrite (IH Hd). simpl.
  unfold Shapes.is_dot in Hx. apply Ascii.eqb_eq in Hx. now subst x.
Qed.

(** The loop that skips leading dots, over a stretch of the path. *)
Lemma has_non_dot_dots (stem : string) :
  forall pre tail,
    Shapes.all_of Shapes.is_dot stem ->
    has_non_dot (String.length stem) (Z.of_nat (String.length pre))
                (pre ++ stem ++ tail) = false.
Proof.
  induction stem as [|x stem IH]; intros pre tail; simpl String.length;
    [reflexivity|].
  intros [Hx Hs]. cbn [has_non_dot]. rewrite Nat2Z.id.
  change (pre ++ String x stem ++ tail) with (pre ++ String x (stem ++ tail)).
  rewrite get_app_length. unfold Shapes.is_dot in Hx. rewrite Hx.
  specialize (IH (pre ++ String x EmptyString) tail Hs).
  rewrite append_assoc, length_append in IH. simpl in IH.
  replace (Z.of_nat (String.length pre) + 1)
    with (Z.of_nat (String.length pre + 1)) by lia.
  exact IH.
Qed.

Lemma has_non_dot_stem (stem : string) :
  forall pre tail,
    ~ Shapes.all_of Shapes.is_dot stem ->
    has_non_dot (String.length stem) (Z.of_nat (String.length pre))
                (pre ++ stem ++ tail) = true.
Proof.
  induction stem as [|x stem IH]; intros pre tail Hn; simpl String.length.
  - exfalso. now apply Hn.
  - cbn [has_non_dot]. rewrite Nat2Z.id.
    change (pre ++ String x stem ++ tail) with (pre ++ String x (stem ++ tail)).
    rewrite get_app_length.
    destruct (Ascii.eqb x ".") eqn:Hx; [|reflexivity].
    assert (Hs : ~ Shapes.all_of Shapes.is_dot stem).
    { intros Hs. apply Hn. simpl. split; [exact Hx | exact Hs]. }
    specialize (IH (pre ++ String x EmptyString) tail Hs).
    rewrite append_assoc, length_append in IH. simpl in IH.
    replace (Z.of_nat (String.length pre) + 1)
      with (Z.of_nat (String.length pre + 1)) by lia.
    exact IH.
Qed.

(** A stem, a dot and an extension: the extension is cut off. *)
Lemma splitext_stem (stem ext : string) :
  rfind "/" stem = -1 -> ~ Shapes.all_of Shapes.is_dot stem ->
  rfind "." ext = -1 -> rfind "/" ext = -1 ->
  fst (splitext (stem ++ "." ++ ext)) = stem.
Proof.
  intros Hstem Hdots Hext1 Hext2.
  change (stem ++ "." ++ ext) with (stem ++ String "." ext).
  assert (Hsep : rfind "/" (stem ++ String "." ext) = -1).
  { rewrite rfind_append. simpl. rewrite Hext2. simpl. exact Hstem. }
  assert (Hdot : rfind "." (stem ++ String "." ext)
                 = Z.of_nat (String.length stem)).
  { rewrite rfind_append. simpl. rewrite Hext1. simpl. lia. }
  unfold splitext. cbv zeta. rewrite Hsep, Hdot.
  destruct (Z.ltb_spec (-1) (Z.of_nat (String.length stem))); [|lia].
  replace (Z.to_nat (Z.of_nat (String.length stem) - (-1 + 1)))
    with (String.length stem) by lia.
  pose proof (has_non_dot_stem stem EmptyString (String "." ext) Hdots) as Hn.
  simpl in Hn. change (Z.of_nat 0) with 0 in Hn.
  change (-1 + 1) with 0. rewrite Hn. simpl. unfold slice_to.
  rewrite Nat2Z.id. apply take_app_length.
Qed.

(** No dot, or only dots in front: nothing is cut off. *)
Lemma splitext_no_extension (dots rest : string) :
  Shapes.all_of Shapes.is_dot dots ->
  rfind "." rest = -1 -> rfind "/" rest = -1 ->
  fst (splitext (dots ++ rest)) = dots ++ rest.
Proof.
  intros Hdots Hrest1 Hrest2.
  assert (Hsep : rfind "/" (dots ++ rest) = -1).
  { rewrite rfind_append, Hrest2. simpl. now apply all_dots_no_slash. }
  assert (Hdot : rfind "." (dots ++ rest) = rfind "." dots).
  { rewrite rfind_append, Hrest1. reflexivity. }
  unfold splitext. cbv zeta. rewrite Hsep, Hdot.
  pose proof (rfind_bounds "." dots) as Hb.
  destruct (Z.ltb_spec (-1) (rfind "." dots)) as [Hlt|]; [|reflexivity].
  pose proof (has_non_dot_dots (take (Z.to_nat (rfind "." dots)) dots)
                EmptyString
                (drop (Z.to_nat (rfind "." dots)) dots ++ rest)
                (all_of_take _ _ _ Hdots)) as Hn.
  rewrite length_take in Hn by lia.
  simpl in Hn. rewrite <- append_assoc, take_drop in Hn.
  change (Z.of_nat 0) with 0 in Hn. change (-1 + 1) with 0.
  replace (Z.to_nat (rfind "." dots - 0)) with (Z.to_nat (rfind "." dots))
    by lia.
  now rewrite Hn.
Qed.

(** The last component of a path that ends in a component without slash. *)
Lemma basename_dir (dir x : string) :
  Shapes.is_dir_part dir -> rfind "/" x = -1 -> basename (dir ++ x) = x.
Proof.
  intros Hdir Hx. unfold basename, slice_from. rewrite rfind_append, Hx. simpl.
  destruct Hdir as [-> | (d & ->)]; [reflexivity|].
  rewrite rfind_append. simpl.
  replace (Z.to_nat (Z.of_nat (String.length d) + 0 + 1))
    with (String.length (d ++ "/")) by (rewrite length_append; simpl; lia).
  apply drop_app_length.
Qed.

Lemma rfind_cons_none (c a : ascii) (s : string) :
  rfind c (String a s) = -1 <-> a <> c /\ rfind c s = -1.
Proof.
  pose proof (rfind_bounds c s) as Hb. simpl.
  destruct (Z.leb_spec 0 (rfind c s)); [lia|].
  destruct (Ascii.eqb_spec a c); [|split; [split; [assumption | lia] | reflexivity]].
  split; [lia | tauto].
Qed.

Lemma all_dots_snoc (ds : string) :
  Shapes.all_of Shapes.is_dot ds -> String "." ds = ds ++ ".".
Proof.
  induction ds as [|d ds IH]; simpl; [reflexivity|].
  intros [Hd Hds]. rewrite <- (IH Hds).
  unfold Shapes.is_dot in Hd. apply Ascii.eqb_eq in Hd. now subst d.
Qed.

(** Every path is a directory part followed by a component without slash. *)
Lemma path_dir_base (p : string) :
  exists dir base,
    p = dir ++ base /\ Shapes.is_dir_part dir /\ rfind "/" base = -1.
Proof.
  induction p as [|c p (dir & base & -> & Hdir & Hbase)].
  - exists EmptyString, EmptyString. repeat split. now left.
  - destruct Hdir as [-> | (d & ->)].
    + destruct (Ascii.eqb_spec c "/") as [-> | Hc].
      * exists "/", base. repeat split; [|exact Hbase].
        right. now exists EmptyString.
      * exists EmptyString, (String c base). repeat split; [now left|].
        now apply rfind_cons_none.
    + exists (String c d ++ "/"), base. repeat split; [|exact Hbase].
      right. now exists (String c d).
Qed.

(** A component without slash has an extension after a stem that is not
    made of dots only, or it has no dot after its leading dots. *)
Lemma base_forms (b : string) :
  rfind "/" b = -1 ->
  (exists stem ext,
     b = stem ++ "." ++ ext /\ rfind "/" stem = -1
     /\ ~ Shapes.all_of Shapes.is_dot stem
     /\ rfind "." ext = -1 /\ rfind "/" ext = -1)
  \/ (exists dots rest,
        b = dots ++ rest /\ Shapes.all_of Shapes.is_dot dots
        /\ rfind "." rest = -1 /\ rfind "/" rest = -1).
Proof.
  induction b as [|c b IH]; intros H.
  - right. exists EmptyString, EmptyString. now repeat split.
  - apply rfind_cons_none in H as [Hc Hb].
    destruct (IH Hb) as [(stem & ext & -> & Hs & Hnd & He1 & He2)
                        |(dots & rest & -> & Hd & Hr1 & Hr2)].
    + left. exists (String c stem), ext. repeat split; try assumption.
      * now apply rfind_cons_none.
      * intros [_ Hall]. now apply Hnd.
    + destruct (Shapes.is_dot c) eqn:Edot.
      * right. exists (String c dots), rest. now repeat split.
      * destruct dots as [|d ds].
        -- right. exists EmptyString, (String c rest).
           repeat split; apply rfind_cons_none; split; try assumption.
           unfold Shapes.is_dot in Edot. now apply Ascii.eqb_neq in Edot.
        -- left. exists (String c ds), rest. destruct Hd as [Hd Hds].
           unfold Shapes.is_dot in Hd. apply Ascii.eqb_eq in Hd. subst d.
           repeat split; try assumption.
           ++ rewrite (all_dots_snoc ds Hds).
              change (String c ((ds ++ ".") ++ rest)
                      = String c (ds ++ "." ++ rest)).
              now rewrite append_assoc.
           ++ apply rfind_cons_none. split; [assumption|].
              now apply all_dots_no_slash.
           ++ intros [Hdot _]. congruence.
Qed.

End PathFacts.

(** ** Listing *)

Section Listing.

Import PyStr ElementTree BoostTestFacade Samples Shapes.

(** C3: for every executable path the fallback listing returns a list with
    exactly one identifier, the base name of the executable with its
    extension removed; [list_tests] and a facade that lists with the
    fallback do the same, so the listing is never empty.  Said without the
    functions of [os.path]: when the path is a directory part, a stem that
    is not made of dots only, a dot and an extension without dot or slash,
    the identifier is the stem; when the last component has no dot, or only
    dots in front, the identifier is that whole component.  Every path is
    of one of these two forms. *)
Theorem C3_fallback_listing_one_identifier (executable : string) :
  _list_tests_fallback executable = [spec_fallback_identifier executable]
  /\ list_tests executable = [spec_fallback_identifier executable]
  /\ length (list_tests executable) = 1%nat
  /\ (forall os run_fn,
        Facade_list_tests os
          {| _list_test_fn := use_list_tests_fallback; _run_test_fn := run_fn |}
          executable
        = Ok [spec_fallback_identifier executable])
  /\ (forall dir stem ext,
        executable = dir ++ stem ++ "." ++ ext ->
        is_dir_part dir ->
        rfind "/" stem = -1 -> ~ all_of is_dot stem ->
        rfind "." ext = -1 -> rfind "/" ext = -1 ->
        list_tests executable = [stem])
  /\ (forall dir dots rest,
        executable = dir ++ dots ++ rest ->
        is_dir_part dir ->
        all_of is_dot dots ->
        rfind "." rest = -1 -> rfind "/" rest = -1 ->
        list_tests executable = [dots ++ rest])
  /\ ((exists dir stem ext,
         executable = dir ++ stem ++ "." ++ ext /\ is_dir_part dir
         /\ rfind "/" stem = -1 /\ ~ all_of is_dot stem
         /\ rfind "." ext = -1 /\ rfind "/" ext = -1)
      \/ (exists dir dots rest,
            executable = dir ++ dots ++ rest /\ is_dir_part dir
            /\ all_of is_dot dots
            /\ rfind "." rest = -1 /\ rfind "/" rest = -1))
  /\ list_tests "/usr/bin/test_suite.exe" = ["test_suite"]
  /\ list_tests "build.d/unit_tests" = ["unit_tests"]
  /\ list_tests "tests.tar.gz" = ["tests.tar"]
  /\ list_tests "bin/.hidden" = [".hidden"].
Proof.
  assert (H : _list_tests_fallback executable
              = [spec_fallback_identifier executable]).
  { unfold _list_tests_fallback, spec_fallback_identifier.
    now rewrite basename_splitext. }
  split; [exact H|]. split; [exact H|]. split; [unfold list_tests; now rewrite H|].
  split; [|split; [|split; [|split; [|repeat split]]]].
  - intros os run_fn. unfold Facade_list_tests; simpl. now rewrite H.
  - intros dir stem ext -> Hdir Hstem Hdots Hext1 Hext2.
    unfold list_tests, _list_tests_fallback. rewrite basename_splitext.
    rewrite basename_dir; [|assumption|].
    + now rewrite splitext_stem.
    + apply rfind_append_none_inv; [assumption|].
      simpl. rewrite Hext2. reflexivity.
  - intros dir dots rest -> Hdir Hdots Hrest1 Hrest2.
    assert (Hslash : rfind "/" (dots ++ rest) = -1).
    { apply rfind_append_none_inv; [|assumption]. now apply all_dots_no_slash. }
    unfold list_tests, _list_tests_fallback. rewrite basename_splitext.
    rewrite basename_dir by assumption.
    now rewrite splitext_no_extension.
  - destruct (path_dir_base executable) as (dir & base & -> & Hdir & Hbase).
    destruct (base_forms base Hbase)
      as [(stem & ext & -> & Hs & Hnd & He1 & He2)
         |(dots & rest & -> & Hd & Hr1 & Hr2)].
    + left. now exists dir, stem, ext.
    + right. now exists dir, dots, rest.
Qed.

(** The executable /usr/bin/test_suite.exe: directory part /usr/bin/, stem
    test_suite, extension exe. *)
Lemma C3_fallback_listing_one_identifier_witness :
  list_tests "/usr/bin/test_suite.exe" = ["test_suite"].
Proof.
  apply (proj1 (proj2 (proj2 (proj2 (proj2
           (C3_fallback_listing_one_identifier "/usr/bin/test_suite.exe")))))
           "/usr/bin/" "test_suite" "exe" eq_refl).
  - right. now exists "/usr/bin".
  - reflexivity.
  - simpl. intuition discriminate.
  - reflexivity.
  - reflexivity.
Defined.



End Listing.

(** ** The fallback run *)


Section FallbackRun.

Import PyStr ElementTree BoostTestFacade Samples Shapes.

Variable fromstring : string -> result Element.






End FallbackRun.



(** ** Cutting a text at a separator *)

Section SplitFacts.

Import PyStr.

Lemma split_rounds_not_nil (n : nat) (sep s : string) :
  split_rounds n sep s <> [].
Proof.
  destruct n as [|n]; simpl; [discriminate|].
  now destruct (partition sep s) as [[a b]|].
Qed.

Lemma occurs_in_length (sep s : string) :
  occurs_in sep s -> (String.length sep <= String.length s)%nat.
Proof. intros (a & b & ->). rewrite !length_append. lia. Qed.

(** Two occurrences of the separator give at least three pieces. *)
Lemma split_rounds_twice (n : nat) (sep s a b c : string) :
  (2 <= n)%nat -> s = a ++ sep ++ b ++ sep ++ c ->
  exists x y z rest, split_rounds n sep s = x :: y :: z :: rest.
Proof.
  intros Hn Hs.
  destruct (partition_occurs sep s) as (x & r & Px);
    [now exists a, (b ++ sep ++ c)|].
  pose proof (partition_Some _ _ _ _ Px) as Hx.
  pose proof (partition_first _ _ _ _ _ _ Px Hs) as Hlen.
  destruct (append_eq_append (x ++ sep) r (a ++ sep) (b ++ sep ++ c))
    as (w & _ & Hr).
  { rewrite !append_assoc. congruence. }
  { rewrite !length_append. lia. }
  destruct (partition_occurs sep r) as (y & r2 & Py).
  { exists (w ++ b), c. now rewrite Hr, !append_assoc. }
  destruct n as [|[|n]]; [lia | lia |].
  simpl. rewrite Px, Py.
  destruct (split_rounds n sep r2) as [|z rest] eqn:E;
    [now apply split_rounds_not_nil in E|].
  now exists x, y, z, rest.
Qed.

(** A single piece is the text itself, and the separator is not in it. *)
Lemma split_rounds_single (n : nat) (sep s y : string) :
  (1 <= String.length sep)%nat -> (String.length s <= n)%nat ->
  split_rounds n sep s = [y] -> y = s /\ ~ occurs_in sep s.
Proof.
  intros Hsep Hn.
  destruct n as [|n]; simpl.
  - intros [= <-]. split; [reflexivity|].
    intros H%occurs_in_length. lia.
  - destruct (partition sep s) as [[a b]|] eqn:P.
    + intros [= _ E]. now apply split_rounds_not_nil in E.
    + intros [= <-]. split; [reflexivity | now apply partition_None].
Qed.

(** Exactly two pieces: the separator occurs once, between them. *)
Lemma split_two (sep s x y : string) :
  (1 <= String.length sep)%nat ->
  split sep s = [x; y] ->
  s = x ++ sep ++ y /\ ~ occurs_in sep x /\ ~ occurs_in sep y.
Proof.
  intros Hsep. unfold split.
  destruct (String.length s) as [|n] eqn:Hlen; simpl; [discriminate|].
  destruct (partition sep s) as [[a r]|] eqn:P; [|discriminate].
  intros [= -> E].
  pose proof (partition_Some _ _ _ _ P) as Hs.
  apply split_rounds_single in E as [-> Hr]; [|assumption|].
  - repeat split; [assumption | | assumption].
    intros (u & v & Hx).
    assert (Hs' : s = u ++ sep ++ (v ++ sep ++ r))
      by (rewrite Hs, Hx, !append_assoc; reflexivity).
    pose proof (partition_first _ _ _ _ _ _ P Hs') as Hle.
    rewrite Hx, !length_append in Hle. lia.
  - rewrite Hs, !length_append in Hlen. lia.
Qed.

End SplitFacts.

(** ** The native log *)

Section NativeLog.

Import PyStr ElementTree BoostTestFacade Samples.

Variable fromstring : string -> result Element.

(** C10: a log that starts with the opening of a FatalError tag and holds
    the closing tag twice makes the parser raise (the two-name unpacking of
    the pieces fails) whatever the XML reader does; and whenever the parser
    returns records for a log with that start, the closing tag occurs in it
    exactly once, between the fragment and the remainder. *)
Theorem C10_closing_tag_twice_raises (log : string) :
  startswith "<FatalError" log = true ->
  ((exists a b c, log = a ++ "</FatalError>" ++ b ++ "</FatalError>" ++ c) ->
   _parse_log fromstring (Some log)
   = Raise (ValueError "too many values to unpack"))
  /\ (forall records, _parse_log fromstring (Some log) = Ok records ->
      exists fatal rest,
        log = fatal ++ "</FatalError>" ++ rest
        /\ ~ occurs_in "</FatalError>" fatal
        /\ ~ occurs_in "</FatalError>" rest).
Proof.
  intros Hstart. split.
  - intros (a & b & c & Hlog).
    unfold _parse_log. rewrite Hstart.
    destruct (split_rounds_twice (String.length log) FatalError_close
                log a b c) as (x & y & z & rest & E).
    { rewrite Hlog, !length_append. simpl. lia. }
    { exact Hlog. }
    unfold split. now rewrite E.
  - intros records. unfold _parse_log. rewrite Hstart.
    destruct (split FatalError_close log) as [|x [|y [|z rest]]] eqn:E;
      simpl; try discriminate.
    intros _. exists x, y.
    apply split_two in E; [exact E | simpl; lia].
Qed.

End NativeLog.

(** A fatal-error fragment followed by a log that reports a FatalError
    element of its own. *)
Lemma C10_closing_tag_twice_raises_witness :
  BoostTestFacade._parse_log ElementTree.fromstring
    (Some "<FatalError>a</FatalError><TestLog><FatalError>b</FatalError></TestLog>")
  = Raise (ValueError "too many values to unpack").
Proof.
  apply (C10_closing_tag_twice_raises ElementTree.fromstring
           "<FatalError>a</FatalError><TestLog><FatalError>b</FatalError></TestLog>"
           eq_refl).
  exists "<FatalError>a", "<TestLog><FatalError>b", "</TestLog>".
  reflexivity.
Defined.

(** ** Outcomes of a run *)

Section Outcomes.

Import PyStr ElementTree BoostTestFacade Samples.

Variable fromstring : string -> result Element.
Variable os : OS.

(** The loop of [_run_tests] acts on the first tuple named [test_id]. *)
Lemma scan_results_first (test_id : string) (results : list TestTuple) :
  scan_results test_id results =
  match first_for test_id results with
  | Some (_, (_ :: _) as failures, _) =>
      Some (do fs <- comprehension BoostTestFailure_init_1 failures;
            Ok (VFailures fs))
  | Some (_, [], true) => Some (Raise SkipException)
  | Some (_, [], false) => Some (Ok VNone)
  | None => None
  end.
Proof.
  unfold first_for.
  induction results as [|[[n f] sk] rest IH]; simpl; [reflexivity|].
  destruct (String.eqb n test_id); [|exact IH].
  now destruct f, sk.
Qed.

Lemma run_tests_on_ok (test_id : string) (results : list TestTuple) :
  outcome_ok (run_tests_on test_id results) = true.
Proof.
  unfold run_tests_on. rewrite scan_results_first.
  destruct (first_for test_id results) as [[[n f] sk]|].
  - destruct f as [|x f]; [now destruct sk | reflexivity].
  - now destruct results.
Qed.

Lemma run_tests_fallback_ok (executable test_id : string)
    (test_args : list string) :
  outcome_ok (_run_tests_fallback fromstring os executable test_id test_args)
  = true.
Proof.
  unfold _run_tests_fallback.
  destruct (popen os _) as [p|e]; simpl; [|reflexivity].
  destruct (read_file os (os_path.join (mkdtemp os) "log.xml")) as [log|e];
    simpl; [|reflexivity].
  destruct (read_file os (os_path.join (mkdtemp os) "report.xml"))
    as [report|e]; simpl; [|reflexivity].
  destruct (acceptable_returncode (returncode p)); simpl; [|reflexivity].
  destruct report as [r|]; simpl.
  - destruct (_ || _); simpl; [reflexivity|].
    destruct (_parse_log fromstring log) as [[|f fs]|e]; reflexivity.
  - destruct (_parse_log fromstring log) as [[|f fs]|e]; reflexivity.
Qed.

Lemma run_tests_ok (executable test_id : string) (test_args : list string) :
  outcome_ok (_run_tests fromstring os executable test_id test_args) = true.
Proof.
  unfold _run_tests.
  destruct (popen os _) as [p|e]; reflexivity.
Qed.

(** C9: whatever the child and the XML reader do, a run never returns an
    empty list: [run_test], both run functions, a facade with either of
    them, and the loop of the JUnit path on any list of tuples return [None]
    or a list that is not empty, or raise.  Where no failure is found the
    value is [None]: in the fallback run when the log parses to the empty
    list, and in the JUnit loop when there is no tuple at all or the tuple
    of the test has neither failures nor the skip mark. *)
Theorem C9_failed_outcome_never_empty (executable test_id : string)
    (test_args : list string) :
  outcome_ok (run_test fromstring os executable test_id test_args) = true
  /\ outcome_ok (_run_tests_fallback fromstring os executable test_id test_args)
     = true
  /\ outcome_ok (_run_tests fromstring os executable test_id test_args) = true
  /\ (forall facade,
        outcome_ok (Facade_run_test fromstring os facade executable test_id
                      test_args) = true)
  /\ (forall results, outcome_ok (run_tests_on test_id results) = true)
  /\ (forall p,
        popen os (app [executable; "--output_format=XML";
                       "--log_sink=" ++ os_path.join (mkdtemp os) "log.xml";
                       "--report_sink=" ++ os_path.join (mkdtemp os) "report.xml"]
                      test_args) = Ok p ->
        acceptable_returncode (returncode p) = true ->
        forall log report,
        read_file os (os_path.join (mkdtemp os) "log.xml") = Ok log ->
        read_file os (os_path.join (mkdtemp os) "report.xml") = Ok report ->
        is_fatal_report report = false ->
        _parse_log fromstring log = Ok [] ->
        _run_tests_fallback fromstring os executable test_id test_args
        = Ok VNone)
  /\ run_tests_on test_id [] = Ok VNone
  /\ (forall results name,
        first_for test_id results = Some (name, [], false) ->
        run_tests_on test_id results = Ok VNone).
Proof.
  repeat split.
  - unfold run_test, try_except.
    destruct (check_output os _) as [output|e]; simpl.
    + destruct (_JUNIT_LOG_FORMAT_search output).
      * pose proof (run_tests_ok executable test_id test_args) as H.
        destruct (_run_tests _ _ _ _ _) as [v|e]; [exact H|].
        destruct (is_CalledProcessError e); [|reflexivity].
        apply run_tests_fallback_ok.
      * pose proof (run_tests_fallback_ok executable test_id test_args) as H.
        destruct (_run_tests_fallback _ _ _ _ _) as [v|e]; [exact H|].
        destruct (is_CalledProcessError e); reflexivity.
    + destruct (is_CalledProcessError e); [|reflexivity].
      apply run_tests_fallback_ok.
  - apply run_tests_fallback_ok.
  - apply run_tests_ok.
  - intros [lf [|]]; unfold Facade_run_test; simpl;
      [apply run_tests_fallback_ok | apply run_tests_ok].
  - apply run_tests_on_ok.
  - intros p Hp Hacc log report Hlog Hreport Hrep Hparse.
    unfold _run_tests_fallback. rewrite Hp. simpl.
    rewrite Hlog. simpl. rewrite Hreport. simpl.
    now rewrite Hacc, Hrep, Hparse.
  - intros results name Hfirst.
    unfold run_tests_on. now rewrite scan_results_first, Hfirst.
Qed.

End Outcomes.

(** A run whose log holds no report of failure returns [None]. *)
Lemma C9_failed_outcome_never_empty_witness :
  BoostTestFacade._run_tests_fallback ElementTree.fromstring
    (Samples.os_child (Ok EmptyString) 0 EmptyString
       (Samples.one_file "/tmp/tmpdir/log.xml" Samples.log_clean))
    "./t" "t" []
  = Ok VNone.
Proof.
  exact (proj1 (proj2 (proj2 (proj2 (proj2 (proj2
           (C9_failed_outcome_never_empty ElementTree.fromstring
              (Samples.os_child (Ok EmptyString) 0 EmptyString
                 (Samples.one_file "/tmp/tmpdir/log.xml" Samples.log_clean))
              "./t" "t" []))))))
           {| returncode := 0; stdout := EmptyString |}
           eq_refl eq_refl (Some Samples.log_clean) None
           eq_refl eq_refl eq_refl eq_refl).
Defined.

(** ** Absent and empty logs *)

Section EmptyLog.

Import PyStr ElementTree BoostTestFacade Samples.

Variable fromstring : string -> result Element.

(** C2, as the code has it: a log that is a well-formed document, does not
    start with a FatalError tag and has no Exception, Error or FatalError
    child under its root parses to the empty list, and the fallback run
    (acceptable exit status, no fatal report) then returns [None].  A file
    that is missing reads as [None] without an exception.  Empty text is not
    a document: the reference reader rejects it and the parser passes the
    ParseError on. *)
Theorem C2_log_without_failures (os : OS) (executable test_id : string)
    (test_args : list string) (p : Completed) (log : string) (root : Element)
    (report : option string) :
  let log_xml := os_path.join (mkdtemp os) "log.xml" in
  let report_xml := os_path.join (mkdtemp os) "report.xml" in
  popen os (app [executable; "--output_format=XML";
                 "--log_sink=" ++ log_xml; "--report_sink=" ++ report_xml]
                test_args) = Ok p ->
  acceptable_returncode (returncode p) = true ->
  read_file os report_xml = Ok report ->
  is_fatal_report report = false ->
  read_file os log_xml = Ok (Some log) ->
  startswith "<FatalError" log = false ->
  fromstring log = Ok root ->
  findall "Exception" root = [] ->
  findall "Error" root = [] ->
  findall "FatalError" root = [] ->
  _parse_log fromstring (Some log) = Ok []
  /\ _run_tests_fallback fromstring os executable test_id test_args = Ok VNone
  /\ (forall name e,
        read_text os name = Raise e -> is_OSError e = true ->
        read_file os name = Ok None)
  /\ _parse_log ElementTree.fromstring (Some EmptyString) = Raise ParseError.
Proof.
  intros log_xml report_xml Hp Hacc Hreport Hrep Hlog Hstart Hroot HEx HEr HFa.
  assert (Hparse : _parse_log fromstring (Some log) = Ok []).
  { unfold _parse_log. rewrite Hstart. simpl. rewrite Hroot. simpl.
    now rewrite HEx, HEr, HFa. }
  repeat split.
  - exact Hparse.
  - unfold _run_tests_fallback. fold log_xml report_xml.
    rewrite Hp. cbn [rbind]. rewrite Hlog. cbn [rbind].
    rewrite Hreport. cbn [rbind]. now rewrite Hacc, Hrep, Hparse.
  - intros name e H He. unfold read_file. now rewrite H, He.
Qed.

End EmptyLog.

Lemma C2_log_without_failures_witness :
  BoostTestFacade._parse_log ElementTree.fromstring (Some Samples.log_clean)
  = Ok []
  /\ BoostTestFacade._run_tests_fallback ElementTree.fromstring
       (Samples.os_child (Ok EmptyString) 0 EmptyString
          (Samples.one_file "/tmp/tmpdir/log.xml" Samples.log_clean))
       "./t" "t" []
     = Ok VNone.
Proof.
  pose proof (C2_log_without_failures ElementTree.fromstring
                (Samples.os_child (Ok EmptyString) 0 EmptyString
                   (Samples.one_file "/tmp/tmpdir/log.xml" Samples.log_clean))
                "./t" "t" [] {| returncode := 0; stdout := EmptyString |}
                Samples.log_clean
                (ElementTree.Elem "TestLog" ∅ None []) None
                eq_refl eq_refl eq_refl eq_refl eq_refl eq_refl eq_refl
                eq_refl eq_refl eq_refl) as H.
  exact (conj (proj1 H) (proj1 (proj2 H))).
Defined.

(** The claim fails on the code: with no log file the parser is handed
    [None] and raises AttributeError, so the run raises instead of passing;
    with an empty log file the parser raises ParseError. *)
Lemma C2_absent_or_empty_log_raises :
  BoostTestFacade._parse_log ElementTree.fromstring None
  = Raise (AttributeError "'NoneType' object has no attribute 'startswith'")
  /\ BoostTestFacade._parse_log ElementTree.fromstring (Some EmptyString)
     = Raise ParseError
  /\ BoostTestFacade._run_tests_fallback ElementTree.fromstring
       (Samples.os_child (Ok EmptyString) 0 EmptyString Samples.no_files) "./t" "t" []
     = Raise (AttributeError "'NoneType' object has no attribute 'startswith'")
  /\ BoostTestFacade._run_tests_fallback ElementTree.fromstring
       (Samples.os_child (Ok EmptyString) 0 EmptyString
          (Samples.one_file "/tmp/tmpdir/log.xml" EmptyString))
       "./t" "t" []
     = Raise ParseError.
Proof. repeat split. Qed.

(** ** The fatal-error fragment *)

Section FatalFragment.

Import PyStr ElementTree BoostTestFacade Samples.

(** C5, as the code has it: when the FatalError fragment carries a file and
    a line (here f.cpp, 3), the log yields two records in order, the
    fragment's with the text "Fatal Error: boom", then the Exception's
    ("a.cpp", 5, "bad"). *)
Theorem C5_fatal_fragment_with_location :
  _parse_log ElementTree.fromstring (Some log_fatal_located)
  = Ok [ {| filename := "f.cpp"; linenum := 3;
            lines := ["Fatal Error: boom"] |};
         {| filename := "a.cpp"; linenum := 5; lines := ["bad"] |} ].
Proof. reflexivity. Qed.

(** On the log as the claim writes it the fragment has no [file] attribute:
    the parser raises KeyError and returns no record. *)
Lemma C5_fatal_fragment_without_location :
  _parse_log ElementTree.fromstring (Some log_fatal_plain)
  = Raise (KeyError "file").
Proof. reflexivity. Qed.

End FatalFragment.

(** ** The JUnit path *)

Section JUnitPath.

Import PyStr ElementTree BoostTestFacade Samples.

(** C6, as the code has it: with a status on both test cases (run on t1,
    notrun on t2) the reader yields ("S.t1", [], false) and
    ("S.t2", [], true) in document order, and the loop of the JUnit run over
    these tuples signals the skip for S.t2; more generally the loop signals
    the skip whenever the first tuple of the requested test has no failure
    and the skip mark. *)
Theorem C6_junit_reader_and_skip :
  junit_xml.parse ElementTree.fromstring (os_junit junit_S_status)
    "/tmp/tmplog.xml"
  = Ok [("S.t1", [], false); ("S.t2", [], true)]
  /\ run_tests_on "S.t2" [("S.t1", [], false); ("S.t2", [], true)]
     = Raise SkipException
  /\ (forall test_id results name,
        first_for test_id results = Some (name, [], true) ->
        run_tests_on test_id results = Raise SkipException).
Proof.
  repeat split.
  intros test_id results name H.
  unfold run_tests_on. now rewrite scan_results_first, H.
Qed.

Lemma C6_junit_reader_and_skip_witness :
  run_tests_on "S.t2" [("S.t0", [Some "x"], false); ("S.t2", [], true)]
  = Raise SkipException.
Proof.
  exact (proj2 (proj2 C6_junit_reader_and_skip) "S.t2"
           [("S.t0", [Some "x"], false); ("S.t2", [], true)] "S.t2" eq_refl).
Defined.

(** On the document as the claim writes it (t1 has only a name) the reader
    raises KeyError for the missing status; and the JUnit run raises
    AttributeError at [junit_xml.get_failures], also for the document with
    both statuses, so it signals no skip. *)
Lemma C6_reader_needs_status_and_run_raises :
  junit_xml.parse ElementTree.fromstring (os_junit junit_S_plain)
    "/tmp/tmplog.xml"
  = Raise (KeyError "status")
  /\ run_test ElementTree.fromstring (os_junit junit_S_plain) "./t" "S.t2" []
     = Raise (AttributeError
                "module 'pytest_cpp.junit_xml' has no attribute 'get_failures'")
  /\ run_test ElementTree.fromstring (os_junit junit_S_status) "./t" "S.t2" []
     = Raise (AttributeError
                "module 'pytest_cpp.junit_xml' has no attribute 'get_failures'").
Proof. repeat split. Qed.

(** C7, the code at the failing input: the JUnit run never returns (the
    child cannot be started, or the lookup of [junit_xml.get_failures]
    fails); and the end of the loop, reached with tuples none of which is
    named [test_id], hands back the tuples themselves, not failures. *)
Theorem C7_mismatch_returns_no_failures :
  (forall fromstring os executable test_id test_args,
     exists e,
       _run_tests fromstring os executable test_id test_args = Raise e)
  /\ _run_tests ElementTree.fromstring (os_junit junit_S_status) "./t" "S.t9" []
     = Raise (AttributeError
                "module 'pytest_cpp.junit_xml' has no attribute 'get_failures'")
  /\ run_tests_on "S.t9" [("S.t1", [], false); ("S.t2", [], true)]
     = Ok (VResults [("S.t1", [], false); ("S.t2", [], true)])
  /\ (forall test_id results,
        first_for test_id results = None ->
        forall failures,
          run_tests_on test_id results <> Ok (VFailures failures)).
Proof.
  repeat split.
  - intros fromstring os executable test_id test_args.
    unfold _run_tests. destruct (popen os _) as [p|e]; simpl; eauto.
  - intros test_id results Hnone failures.
    unfold run_tests_on. rewrite scan_results_first, Hnone.
    now destruct results.
Qed.

Lemma C7_mismatch_returns_no_failures_witness :
  run_tests_on "S.t9" [("S.t1", [], false)] <> Ok (VFailures []).
Proof.
  exact (proj2 (proj2 (proj2 C7_mismatch_returns_no_failures))
           "S.t9" [("S.t1", [], false)] eq_refl []).
Defined.

End JUnitPath.

(** ** The probe *)

Section Probe.

Import PyStr ElementTree BoostTestFacade Samples.

Variable fromstring : string -> result Element.

(** C8, the code at the failing input: a help invocation that exits with a
    non-zero status is caught (the fallback functions are chosen, the
    fallback run is made), and [is_test_suite] also catches a child that
    cannot be started; but [create_facade] and [run_test] catch
    CalledProcessError only, so the OSError of a failed start reaches the
    caller. *)
Theorem C8_probe_spawn_failure_propagates (os : OS) (executable test_id : string)
    (test_args : list string) :
  (forall code,
     check_output os [executable; "--help"] = Raise (CalledProcessError code) ->
     create_facade os executable
     = Ok {| _list_test_fn := use_list_tests_fallback;
             _run_test_fn := use_run_tests_fallback |}
     /\ run_test fromstring os executable test_id test_args
        = _run_tests_fallback fromstring os executable test_id test_args
     /\ is_test_suite os executable = Ok false)
  /\ (check_output os [executable; "--help"] = Raise OSError ->
      create_facade os executable = Raise OSError
      /\ run_test fromstring os executable test_id test_args = Raise OSError
      /\ is_test_suite os executable = Ok false).
Proof.
  split.
  - intros code H. unfold create_facade, run_test, is_test_suite, try_except.
    now rewrite H.
  - intros H. unfold create_facade, run_test, is_test_suite, try_except.
    now rewrite H.
Qed.

End Probe.

Lemma C8_probe_spawn_failure_propagates_witness :
  BoostTestFacade.create_facade Samples.os_spawn_failure "./missing"
  = Raise OSError
  /\ BoostTestFacade.run_test ElementTree.fromstring Samples.os_spawn_failure
       "./missing" "missing" []
     = Raise OSError
  /\ BoostTestFacade.is_test_suite Samples.os_spawn_failure "./missing"
     = Ok false.
Proof.
  exact (proj2 (C8_probe_spawn_failure_propagates ElementTree.fromstring
                  Samples.os_spawn_failure "./missing" "missing" [])
           eq_refl).
Defined.

(** * Further properties of the code *)

(** ** Records of the native log *)

Section NativeLogRecords.

Import PyStr ElementTree BoostTestFacade Samples Shapes.

Variable fromstring : string -> result Element.

Lemma parse_log_elem_Ok (acc acc' : list BoostTestFailure) (elem : Element) :
  parse_log_elem acc elem = Ok acc' <->
  exists f, acc' = (acc ++ [f])%list /\ reports elem f.
Proof.
  unfold parse_log_elem, getitem, reports, BoostTestFailure_init. split.
  - destruct (attrib elem !! "file") as [file|]; simpl; [|discriminate].
    destruct (attrib elem !! "line") as [line|]; simpl; [|discriminate].
    destruct (int line) as [n|e] eqn:Hint; simpl; [|discriminate].
    destruct (text elem) as [t|]; simpl; [|discriminate].
    intros [= <-]. eexists. split; [reflexivity|]. simpl. eauto 10.
  - intros ([file n ls] & -> & Hfile & (line & Hline & Hint) & (t & Ht & Hls)).
    simpl in *. rewrite Hfile, Hline. simpl. rewrite Hint, Ht. simpl.
    now subst ls.
Qed.

(** The loop over the collected elements returns exactly when every element
    has a failure that reports it, and then returns these in order. *)
Lemma rfold_parse_log_elem (xs : list Element) :
  forall acc r,
    rfold parse_log_elem xs acc = Ok r <->
    exists ys, r = (acc ++ ys)%list /\ Forall2 reports xs ys.
Proof.
  induction xs as [|x xs IH]; intros acc r; simpl.
  - split.
    + intros [= <-]. exists []. split; [now rewrite app_nil_r | constructor].
    + intros (ys & -> & H). inversion H. now rewrite app_nil_r.
  - split.
    + destruct (parse_log_elem acc x) as [acc'|e] eqn:E; simpl; [|discriminate].
      apply parse_log_elem_Ok in E as (f & -> & Hf).
      intros (ys & -> & Hys)%IH. exists (f :: ys).
      split; [now rewrite <- app_assoc | now constructor].
    + intros (ys & -> & H). inversion H as [|? f ? ys' Hf Hys]; subst.
      assert (E : parse_log_elem acc x = Ok (acc ++ [f])%list)
        by (apply parse_log_elem_Ok; eauto).
      rewrite E. simpl. apply IH. exists ys'.
      split; [now rewrite <- app_assoc | assumption].
Qed.

Lemma findall_count (root : Element) :
  length (reported_elements root)
  = length (List.filter is_reported_tag (children root)).
Proof.
  unfold reported_elements, findall, is_reported_tag.
  rewrite !length_app.
  induction (children root) as [|c cs IH]; [reflexivity|].
  rewrite !filter_cons. simpl List.filter.
  destruct (String.eqb_spec (tag c) "Exception") as [E1|E1];
    destruct (String.eqb_spec (tag c) "Error") as [E2|E2];
    destruct (String.eqb_spec (tag c) "FatalError") as [E3|E3];
    try congruence;
    repeat case_decide; try congruence; simpl; lia.
Qed.

(** X1: for a log that does not start with a FatalError tag and that the
    reader accepts, the parser returns records exactly when every
    Exception, Error and FatalError child of the root has a file, a line
    that reads as an integer and a text; the records then report these
    children one for one, all Exceptions first, then all Errors, then all
    FatalErrors, and there are as many records as such children. *)
Theorem X1_parse_log_reports_children (log : string) (root : Element)
    (records : list BoostTestFailure) :
  startswith "<FatalError" log = false ->
  fromstring log = Ok root ->
  (_parse_log fromstring (Some log) = Ok records <->
   Forall2 reports (reported_elements root) records)
  /\ (_parse_log fromstring (Some log) = Ok records ->
      length records = length (List.filter is_reported_tag (children root))).
Proof.
  intros Hstart Hroot.
  assert (H : _parse_log fromstring (Some log) = Ok records <->
              Forall2 reports (reported_elements root) records).
  { unfold _parse_log. rewrite Hstart. simpl. rewrite Hroot. simpl.
    fold (reported_elements root). rewrite rfold_parse_log_elem.
    split; [now intros (ys & -> & Hys) | intros Hys; now exists records]. }
  split; [exact H|].
  intros Hok%H. apply Forall2_length in Hok.
  now rewrite <- Hok, findall_count.
Qed.

(** X2: when the log starts with a FatalError tag and the parser returns,
    the log is a fragment, the closing tag (which occurs nowhere else) and a
    remainder; the reader accepts the fragment with its closing tag and the
    remainder; the first record is the one of the fragment, with the
    fragment's file, its line read as an integer, and the lines of
    "Fatal Error: " followed by the fragment's text (None when it has no
    text); the other records report the Exception, Error and FatalError
    children of the remainder's root, in this order.  A fallback run that
    reads such a log never passes: it returns failures or raises. *)
Theorem X2_fatal_fragment_comes_first (log : string) :
  startswith "<FatalError" log = true ->
  (forall records,
     _parse_log fromstring (Some log) = Ok records ->
     exists fatal remainder fatal_root log_root r rest line,
       log = fatal ++ "</FatalError>" ++ remainder
       /\ ~ occurs_in "</FatalError>" fatal
       /\ ~ occurs_in "</FatalError>" remainder
       /\ fromstring (fatal ++ "</FatalError>") = Ok fatal_root
       /\ fromstring remainder = Ok log_root
       /\ records = r :: rest
       /\ attrib fatal_root !! "file" = Some (filename r)
       /\ attrib fatal_root !! "line" = Some line
       /\ int line = Ok (linenum r)
       /\ lines r
          = splitlines ("Fatal Error: " ++ str_of_optional (text fatal_root))
       /\ Forall2 reports (reported_elements log_root) rest)
  /\ (forall os executable test_id test_args,
        read_file os (os_path.join (mkdtemp os) "log.xml") = Ok (Some log) ->
        _run_tests_fallback fromstring os executable test_id test_args
        <> Ok VNone).
Proof.
  intros Hstart.
  assert (H : forall records,
             _parse_log fromstring (Some log) = Ok records ->
             exists fatal remainder fatal_root log_root r rest line,
               log = fatal ++ "</FatalError>" ++ remainder
               /\ ~ occurs_in "</FatalError>" fatal
               /\ ~ occurs_in "</FatalError>" remainder
               /\ fromstring (fatal ++ "</FatalError>") = Ok fatal_root
               /\ fromstring remainder = Ok log_root
               /\ records = r :: rest
               /\ attrib fatal_root !! "file" = Some (filename r)
               /\ attrib fatal_root !! "line" = Some line
               /\ int line = Ok (linenum r)
               /\ lines r
                  = splitlines ("Fatal Error: "
                                ++ str_of_optional (text fatal_root))
               /\ Forall2 reports (reported_elements log_root) rest).
  { intros records. unfold _parse_log. rewrite Hstart.
    destruct (split FatalError_close log) as [|x [|y [|z zs]]] eqn:Hsplit;
      simpl; try discriminate.
    apply split_two in Hsplit as (Hlog & Hx & Hy); [|simpl; lia].
    destruct (fromstring (x ++ FatalError_close)) as [fatal_root|e] eqn:Hfr;
      simpl; [|discriminate].
    destruct (fromstring y) as [log_root|e] eqn:Hlr; simpl; [|discriminate].
    intros Hfold.
    change (rfold parse_log_elem
              (set_text fatal_root
                 ("Fatal Error: " ++ str_of_optional (text fatal_root))
               :: reported_elements log_root) [] = Ok records) in Hfold.
    apply rfold_parse_log_elem in Hfold as (ys & -> & Hys).
    inversion Hys
      as [|? r ? rest (Hfile & (line & Hline & Hint) & (t & Ht & Hls)) Hrest];
      subst.
    exists x, y, fatal_root, log_root, r, rest, line.
    destruct fatal_root as [tg ats tx ch]. simpl in *.
    injection Ht as <-. now repeat split. }
  split; [exact H|].
  intros os executable test_id test_args Hlog.
  unfold _run_tests_fallback. rewrite Hlog.
  destruct (popen os _) as [p|e]; cbn [rbind]; [|discriminate].
  destruct (read_file os (os_path.join (mkdtemp os) "report.xml"))
    as [report|e]; cbn [rbind]; [|discriminate].
  destruct (negb (acceptable_returncode (returncode p)));
    [simpl; discriminate|].
  destruct (is_fatal_report report);
    [destruct report; simpl; discriminate|].
  destruct (_parse_log fromstring (Some log)) as [records|e'] eqn:E;
    cbn [rbind]; [|discriminate].
  destruct (H records eq_refl)
    as (? & ? & ? & ? & r & rest & ? & _ & _ & _ & _ & _ & -> & _).
  discriminate.
Qed.

(** X3: with an acceptable exit status, once the log file has been read
    (as text, or as None when it is missing), a report that starts with one
    of the two fatal prefixes gives exactly one failure at
    "unknown location", line 0, holding the lines of the report; the log is
    not parsed, so this holds whether it is missing, malformed or full of
    failures, and whatever the XML reader does.  A log that cannot be read
    as text makes the run raise before the report is looked at. *)
Theorem X3_fatal_report_wins_over_log (os : OS) (executable test_id : string)
    (test_args : list string) (p : Completed) (log : option string)
    (report rest : string) :
  let log_xml := os_path.join (mkdtemp os) "log.xml" in
  let report_xml := os_path.join (mkdtemp os) "report.xml" in
  popen os (app [executable; "--output_format=XML";
                 "--log_sink=" ++ log_xml; "--report_sink=" ++ report_xml]
                test_args) = Ok p ->
  acceptable_returncode (returncode p) = true ->
  report = "Boost.Test framework internal error: " ++ rest
  \/ report = "Test setup error: " ++ rest ->
  (read_file os log_xml = Ok log ->
   read_file os report_xml = Ok (Some report) ->
   _run_tests_fallback fromstring os executable test_id test_args
   = Ok (VFailures [ {| filename := "unknown location"; linenum := 0;
                        lines := splitlines report |} ]))
  /\ (forall e,
        read_file os log_xml = Raise e ->
        _run_tests_fallback fromstring os executable test_id test_args
        = Raise e).
Proof.
  intros log_xml report_xml Hp Hacc Hprefix. split.
  - intros Hlog Hrep.
    unfold _run_tests_fallback. fold log_xml report_xml.
    rewrite Hp. cbn [rbind]. rewrite Hlog. cbn [rbind].
    rewrite Hrep. cbn [rbind]. rewrite Hacc. simpl.
    assert (Hs : startswith "Boost.Test framework internal error: " report
                 || startswith "Test setup error: " report = true).
    { unfold startswith.
      destruct Hprefix as [-> | ->]; rewrite strip_prefix_app;
        [reflexivity | apply orb_true_r]. }
    now rewrite Hs.
  - intros e Hlog. unfold _run_tests_fallback. fold log_xml report_xml.
    rewrite Hp. cbn [rbind]. now rewrite Hlog.
Qed.

End NativeLogRecords.

(** ** Tuples of the JUnit reader *)

Section JUnitTuples.

Import PyStr ElementTree BoostTestFacade Samples Shapes.

Variable fromstring : string -> result Element.
Variable os : OS.

Lemma parse_test_case_Ok (suite_name : string) (acc acc' : list TestTuple)
    (c : Element) :
  junit_xml.parse_test_case suite_name acc c = Ok acc' <->
  exists t, acc' = (acc ++ [t])%list /\ case_describes suite_name c t.
Proof.
  unfold junit_xml.parse_test_case, getitem, case_describes. split.
  - destruct (attrib c !! "name") as [cn|]; simpl; [|discriminate].
    destruct (attrib c !! "status") as [st|]; simpl; [|discriminate].
    intros [= <-]. eauto 10.
  - intros (t & -> & cn & st & Hn & Hs & ->). now rewrite Hn, Hs.
Qed.

Lemma rfold_test_cases (suite_name : string) (cs : list Element) :
  forall acc r,
    rfold (junit_xml.parse_test_case suite_name) cs acc = Ok r <->
    exists ts, r = (acc ++ ts)%list /\ Forall2 (case_describes suite_name) cs ts.
Proof.
  induction cs as [|c cs IH]; intros acc r; simpl.
  - split.
    + intros [= <-]. exists []. split; [now rewrite app_nil_r | constructor].
    + intros (ts & -> & H). inversion H. now rewrite app_nil_r.
  - split.
    + destruct (junit_xml.parse_test_case suite_name acc c) as [acc'|e] eqn:E;
        simpl; [|discriminate].
      apply parse_test_case_Ok in E as (t & -> & Ht).
      intros (ts & -> & Hts)%IH. exists (t :: ts).
      split; [now rewrite <- app_assoc | now constructor].
    + intros (ts & -> & H). inversion H as [|? t ? ts' Ht Hts]; subst.
      assert (E : junit_xml.parse_test_case suite_name acc c
                  = Ok (acc ++ [t])%list)
        by (apply parse_test_case_Ok; eauto).
      rewrite E. simpl. apply IH. exists ts'.
      split; [now rewrite <- app_assoc | assumption].
Qed.

Lemma describes_cases (suite : Element) (suite_name : string)
    (cs : list Element) (ts : list TestTuple) :
  attrib suite !! "name" = Some suite_name ->
  Forall2 describes (map (pair suite) cs) ts
  <-> Forall2 (case_describes suite_name) cs ts.
Proof.
  intros Hn. revert ts. induction cs as [|c cs IH]; intros ts; simpl.
  - split; intros H; inversion H; constructor.
  - split; intros H; inversion H as [|? t ? ts' Ht Hts]; subst;
      constructor; try (now apply IH).
    + destruct Ht as (sn & Hsn & Hc). simpl in *. congruence.
    + exists suite_name. now split.
Qed.

Lemma rfold_test_suites (ss : list Element) :
  forall acc r,
    rfold junit_xml.parse_test_suite ss acc = Ok r <->
    exists ts,
      r = (acc ++ ts)%list
      /\ Forall2 describes
           (flat_map (fun suite => map (pair suite) (findall "testcase" suite))
                     ss) ts
      /\ Forall named ss.
Proof.
  induction ss as [|s ss IH]; intros acc r; simpl.
  - split.
    + intros [= <-]. exists []. rewrite app_nil_r. repeat constructor.
    + intros (ts & -> & H & _). inversion H. now rewrite app_nil_r.
  - unfold junit_xml.parse_test_suite at 1, getitem. split.
    + destruct (attrib s !! "name") as [sn|] eqn:Hn; simpl; [|discriminate].
      destruct (rfold (junit_xml.parse_test_case sn) _ acc) as [acc'|e] eqn:E;
        simpl; [|discriminate].
      apply rfold_test_cases in E as (ts1 & -> & H1).
      intros (ts2 & -> & H2 & Hnamed)%IH. exists (ts1 ++ ts2)%list.
      split; [now rewrite <- app_assoc|]. split.
      * apply Forall2_app; [|assumption]. now apply (describes_cases s sn).
      * constructor; [now exists sn | assumption].
    + intros (ts & -> & H & Hnamed).
      inversion Hnamed as [|? ? [sn Hn] Hrest]; subst.
      apply Forall2_app_inv_l in H as (ts1 & ts2 & H1 & H2 & ->).
      apply (describes_cases s sn) in H1; [|assumption].
      rewrite Hn. simpl.
      assert (E : rfold (junit_xml.parse_test_case sn)
                    (findall "testcase" s) acc = Ok (acc ++ ts1)%list)
        by (apply rfold_test_cases; eauto).
      rewrite E. simpl. apply IH. exists ts2.
      split; [now rewrite <- app_assoc | now split].
Qed.

(** X4: [parse] returns exactly when the document is read, every testsuite
    child of the root has a name and every testcase in them has a name and
    a status; it then yields one tuple for each such testcase, in document
    order, made of "suite.case", the texts of the failure children and the
    test status == notrun. *)
Theorem X4_junit_parse_tuples (filename content : string) (root : Element)
    (results : list TestTuple) :
  read os filename = Some content ->
  fromstring content = Ok root ->
  junit_xml.parse fromstring os filename = Ok results <->
  Forall2 describes (junit_cases root) results
  /\ Forall named (findall "testsuite" root).
Proof.
  intros Hread Hroot.
  unfold junit_xml.parse, junit_xml.ElementTree_parse.
  rewrite Hread, Hroot. simpl. rewrite rfold_test_suites.
  fold (junit_cases root). split.
  - now intros (ts & -> & H).
  - intros H. now exists results.
Qed.

(** X5: when no child of the root is a testsuite the reader yields no tuple
    at all, whatever else the document holds; so a document whose root is
    itself the testsuite element gives the empty list. *)
Theorem X5_junit_parse_needs_testsuite_children (filename content : string)
    (root : Element) :
  read os filename = Some content ->
  fromstring content = Ok root ->
  Forall (fun c => tag c <> "testsuite") (children root) ->
  junit_xml.parse fromstring os filename = Ok []
  /\ forall test_id, run_tests_on test_id [] = Ok VNone.
Proof.
  intros Hread Hroot Hnone.
  assert (E : findall "testsuite" root = []).
  { unfold findall. induction Hnone as [|c cs Hc _ IH]; [reflexivity|].
    rewrite filter_cons. now case_decide. }
  split; [|reflexivity].
  unfold junit_xml.parse, junit_xml.ElementTree_parse.
  rewrite Hread, Hroot. unfold rbind. now rewrite E.
Qed.

(** X6: the loop of the JUnit run never hands back failure records, for no
    list of tuples and no test id; when the first tuple named [test_id]
    carries failure texts, building the failures raises TypeError, since
    [BoostTestFailure] is called with one argument instead of three. *)
Theorem X6_junit_loop_never_returns_failures (test_id : string)
    (results : list TestTuple) :
  (forall failures, run_tests_on test_id results <> Ok (VFailures failures))
  /\ (forall name_ x xs skipped,
        first_for test_id results = Some (name_, x :: xs, skipped) ->
        exists what, run_tests_on test_id results = Raise (TypeError what)).
Proof.
  unfold run_tests_on. rewrite scan_results_first. split.
  - intros failures.
    destruct (first_for test_id results) as [[[n f] sk]|].
    + destruct f as [|x f]; [now destruct sk | discriminate].
    + now destruct results.
  - intros name_ x xs skipped ->. simpl. eauto.
Qed.

End JUnitTuples.

(** ** The probe and the choice of the run function *)

Section ProbeChoice.

Import PyStr ElementTree BoostTestFacade Samples Shapes.

Lemma contains_occurs (sub s : string) :
  contains sub s = true <-> occurs_in sub s.
Proof.
  unfold contains. split.
  - destruct (partition sub s) as [[a b]|] eqn:P; [|discriminate].
    intros _. exists a, b. now apply partition_Some.
  - intros H. now destruct (partition_occurs sub s H) as (a & b & ->).
Qed.

(** What follows the first occurrence of [sep] holds what follows any
    occurrence. *)
Lemma partition_keeps_suffix (sep s a r a0 t : string) :
  partition sep s = Some (a, r) -> s = a0 ++ sep ++ t ->
  exists w, r = w ++ t.
Proof.
  intros P Hs.
  pose proof (partition_Some _ _ _ _ P) as Hx.
  pose proof (partition_first _ _ _ _ _ _ P Hs) as Hlen.
  destruct (append_eq_append (a ++ sep) r (a0 ++ sep) t) as (w & _ & Hr).
  { rewrite !append_assoc. congruence. }
  { rewrite !length_append. lia. }
  now exists w.
Qed.

(** The pattern of the JUNIT log format on one line: the three markers in
    order, anything between and around them. *)
Lemma JUNIT_LOG_FORMAT_line_spec (line : string) :
  _JUNIT_LOG_FORMAT_line line = true <->
  exists a b c d, line = a ++ "--log_format=<" ++ b ++ "JUNIT" ++ c ++ ">" ++ d.
Proof.
  unfold _JUNIT_LOG_FORMAT_line. split.
  - destruct (partition "--log_format=<" line) as [[a r1]|] eqn:P1;
      [|discriminate].
    destruct (partition "JUNIT" r1) as [[b r2]|] eqn:P2; [|discriminate].
    intros (c & d & Hr2)%contains_occurs.
    apply partition_Some in P1, P2. exists a, b, c, d. congruence.
  - intros (a & b & c & d & Hline).
    destruct (partition_occurs "--log_format=<" line) as (a' & r1 & P1);
      [now exists a, (b ++ "JUNIT" ++ c ++ ">" ++ d)|].
    rewrite P1.
    destruct (partition_keeps_suffix _ _ _ _ _ _ P1 Hline) as (w & Hr1).
    destruct (partition_occurs "JUNIT" r1) as (b' & r2 & P2).
    { exists (w ++ b), (c ++ ">" ++ d). now rewrite Hr1, append_assoc. }
    rewrite P2.
    assert (Hr1' : r1 = (w ++ b) ++ "JUNIT" ++ c ++ ">" ++ d)
      by now rewrite Hr1, append_assoc.
    destruct (partition_keeps_suffix _ _ _ _ _ _ P2 Hr1') as (w' & Hr2).
    apply contains_occurs. exists (w' ++ c), d.
    now rewrite Hr2, append_assoc.
Qed.

Lemma JUNIT_LOG_FORMAT_search_spec (output : string) :
  _JUNIT_LOG_FORMAT_search output = true <->
  exists line a b c d,
    In line (get_lines_iter output)
    /\ line = a ++ "--log_format=<" ++ b ++ "JUNIT" ++ c ++ ">" ++ d.
Proof.
  unfold _JUNIT_LOG_FORMAT_search, get_lines_iter.
  rewrite existsb_exists. split.
  - intros (line & Hin & (a & b & c & d & H)%JUNIT_LOG_FORMAT_line_spec).
    now exists line, a, b, c, d.
  - intros (line & a & b & c & d & Hin & H). exists line.
    split; [assumption|]. apply JUNIT_LOG_FORMAT_line_spec. now exists a, b, c, d.
Qed.

(** X7: a facade that [create_facade] returns always lists with the
    fallback, so it lists exactly one identifier and never runs the
    executable for a listing; its run function is the JUnit one exactly when
    the help invocation succeeded and some line of the help text holds
    "--log_format=<", later "JUNIT", later ">". *)
Theorem X7_create_facade_choice (os : OS) (executable : string)
    (facade : Facade) :
  create_facade os executable = Ok facade ->
  _list_test_fn facade = use_list_tests_fallback
  /\ Facade_list_tests os facade executable
     = Ok [spec_fallback_identifier executable]
  /\ (_run_test_fn facade = use_run_tests <->
      exists output line a b c d,
        check_output os [executable; "--help"] = Ok output
        /\ In line (get_lines_iter output)
        /\ line = a ++ "--log_format=<" ++ b ++ "JUNIT" ++ c ++ ">" ++ d).
Proof.
  unfold create_facade, try_except.
  destruct (check_output os [executable; "--help"]) as [output|e]; simpl.
  - intros [= <-]. simpl. split; [reflexivity|]. split.
    + unfold Facade_list_tests, _list_tests_fallback, spec_fallback_identifier.
      simpl. now rewrite basename_splitext.
    + destruct (_JUNIT_LOG_FORMAT_search output) eqn:S.
      * apply JUNIT_LOG_FORMAT_search_spec in S
          as (line & a & b & c & d & Hin & Hl).
        split; [|reflexivity]. intros _. now exists output, line, a, b, c, d.
      * split; [discriminate|].
        intros (o & line & a & b & c & d & [= <-] & Hin & Hl).
        assert (_JUNIT_LOG_FORMAT_search output = true)
          by (apply JUNIT_LOG_FORMAT_search_spec; now exists line, a, b, c, d).
        congruence.
  - destruct (is_CalledProcessError e); [|discriminate].
    intros [= <-]. simpl. split; [reflexivity|]. split.
    + unfold Facade_list_tests, _list_tests_fallback, spec_fallback_identifier.
      simpl. now rewrite basename_splitext.
    + split; [discriminate|].
      intros (o & line & a & b & c & d & H & _). discriminate.
Qed.

(** X8: the probe that [run_test] makes on every call picks the run
    function that [create_facade] stores: as long as starting the child
    does not raise CalledProcessError (Popen never does), running through
    the created facade and calling [run_test] give the same outcome. *)
Theorem X8_run_test_agrees_with_facade
    (fromstring : string -> result Element) (os : OS)
    (executable test_id : string) (test_args : list string) (facade : Facade) :
  (forall args code, popen os args <> Raise (CalledProcessError code)) ->
  create_facade os executable = Ok facade ->
  Facade_run_test fromstring os facade executable test_id test_args
  = run_test fromstring os executable test_id test_args.
Proof.
  intros Hpopen. unfold create_facade, run_test, Facade_run_test, try_except.
  destruct (check_output os [executable; "--help"]) as [output|e]; simpl.
  - intros [= <-]. simpl.
    destruct (_JUNIT_LOG_FORMAT_search output).
    + unfold _run_tests.
      destruct (popen os _) as [p|e] eqn:Hp; simpl; [reflexivity|].
      destruct e; try reflexivity. now apply Hpopen in Hp.
    + destruct (_run_tests_fallback fromstring os executable test_id test_args)
        as [v|e]; [reflexivity|].
      now destruct (is_CalledProcessError e).
  - destruct (is_CalledProcessError e); [|discriminate].
    now intros [= <-].
Qed.

(** X9: [is_test_suite] answers true exactly when the help invocation
    succeeds and its text holds both "--output_format" and "log_format";
    a non-zero exit status and a child that cannot be started both give
    false, not an exception. *)
Theorem X9_is_test_suite_markers (os : OS) (executable : string) :
  (is_test_suite os executable = Ok true <->
   exists output,
     check_output os [executable; "--help"] = Ok output
     /\ occurs_in "--output_format" output
     /\ occurs_in "log_format" output)
  /\ (forall code,
        check_output os [executable; "--help"] = Raise (CalledProcessError code) ->
        is_test_suite os executable = Ok false)
  /\ (check_output os [executable; "--help"] = Raise OSError ->
      is_test_suite os executable = Ok false).
Proof.
  unfold is_test_suite. repeat split.
  - destruct (check_output os [executable; "--help"]) as [output|e].
    + intros [= [H1 H2]%andb_true_iff]. exists output.
      now rewrite <- !contains_occurs.
    + destruct (_ || _); discriminate.
  - intros (output & -> & H1 & H2).
    apply contains_occurs in H1, H2. now rewrite H1, H2.
  - now intros code ->.
  - now intros ->.
Qed.

End ProbeChoice.

(** ** The hierarchical listing *)

Section ListingLines.

Import PyStr ElementTree BoostTestFacade Samples Shapes.

Lemma span_append (p : ascii -> bool) (s a b : string) :
  span p s = (a, b) -> s = a ++ b.
Proof.
  revert a; induction s as [|c s IH]; intros a; simpl.
  - now intros [= <- <-].
  - destruct (p c); [|now intros [= <- <-]].
    destruct (span p s) as [a' b']. intros [= <- <-]. simpl.
    now rewrite (IH a' eq_refl).
Qed.

Lemma span_all_of (p : ascii -> bool) (s a b : string) :
  span p s = (a, b) -> all_of p a.
Proof.
  revert a; induction s as [|c s IH]; intros a; simpl.
  - now intros [= <- <-].
  - destruct (p c) eqn:Hc; [|now intros [= <- <-]].
    destruct (span p s) as [a' b']. intros [= <- <-]. simpl. eauto.
Qed.

Lemma span_stops (p : ascii -> bool) (s a : string) (c : ascii) (b : string) :
  span p s = (a, String c b) -> p c = false.
Proof.
  revert a; induction s as [|x s IH]; intros a; simpl; [discriminate|].
  destruct (p x) eqn:Hx; [|now intros [= <- <- <-]].
  destruct (span p s) as [a' b']. intros [= <- ->]. eauto.
Qed.

Lemma span_unique (p : ascii -> bool) (a b : string) :
  all_of p a ->
  match b with String c _ => p c = false | EmptyString => True end ->
  span p (a ++ b) = (a, b).
Proof.
  intros Ha Hb. induction a as [|x a IH]; simpl.
  - destruct b as [|c b]; [reflexivity|]. simpl. now rewrite Hb.
  - destruct Ha as [Hx Ha]. now rewrite Hx, IH.
Qed.

Lemma test_case_pattern_spec (line indent_group test_name : string) :
  _TEST_CASE_PATTERN_match line = Some (indent_group, test_name) <->
  exists rest,
    line = indent_group ++ test_name ++ "*" ++ rest
    /\ all_of is_space indent_group
    /\ test_name <> EmptyString
    /\ all_of name_char test_name.
Proof.
  unfold _TEST_CASE_PATTERN_match. fold name_char. split.
  - destruct (span is_space line) as [i r1] eqn:S1.
    destruct (span name_char r1) as [n r2] eqn:S2.
    destruct n as [|c n]; [discriminate|].
    destruct r2 as [|x rest]; [discriminate|].
    destruct (Ascii.eqb_spec x "*") as [->|Hx].
    + intros [= <- <-]. exists rest.
      apply span_append in S1 as H1. apply span_append in S2 as H2.
      apply span_all_of in S1. apply span_all_of in S2.
      split; [now rewrite H1, H2|]. split; [assumption|].
      split; [discriminate | assumption].
    + intros H. exfalso. apply Hx.
      destruct x as [[] [] [] [] [] [] [] []]; try discriminate H.
      reflexivity.
  - intros (rest & -> & Hi & Hne & Hn).
    destruct test_name as [|c n]; [contradiction|].
    rewrite (span_unique is_space indent_group
               (String c n ++ "*" ++ rest) Hi).
    + rewrite (span_unique name_char (String c n) ("*" ++ rest) Hn);
        reflexivity.
    + simpl. destruct Hn as [Hc _]. unfold name_char in Hc.
      destruct (is_space c); [|reflexivity].
      now rewrite orb_true_r in Hc.
Qed.

Lemma match_name_not_empty (line i n : string) :
  _TEST_CASE_PATTERN_match line = Some (i, n) -> n <> EmptyString.
Proof. now intros (rest & _ & _ & H & _)%test_case_pattern_spec. Qed.

(** X10: [_TEST_CASE_PATTERN] matches a line exactly when the line is some
    white space, then a non-empty name without white space and without a
    star, then a star; the groups are that white space and that name, and
    what follows the star is ignored. *)
Theorem X10_test_case_pattern (line indent_group test_name : string) :
  _TEST_CASE_PATTERN_match line = Some (indent_group, test_name) <->
  exists rest,
    line = indent_group ++ test_name ++ "*" ++ rest
    /\ all_of is_space indent_group
    /\ test_name <> EmptyString
    /\ all_of name_char test_name.
Proof. apply test_case_pattern_spec. Qed.

End ListingLines.

Section ListingFold.

Import PyStr ElementTree BoostTestFacade Samples Shapes.

Lemma list_step_no_match (st : ListState) (line : string) :
  _TEST_CASE_PATTERN_match line = None -> list_step st line = st.
Proof. intros H. unfold list_step. now rewrite H. Qed.

Lemma pop_closed_nil (i : nat) : pop_closed i [] = [].
Proof. reflexivity. Qed.

Lemma pop_closed_snoc (i : nat) (b : list TestNode) (t : TestNode) :
  pop_closed i (b ++ [t])%list =
  if (i <=? indent t)%nat then pop_closed i b else (b ++ [t])%list.
Proof.
  unfold pop_closed. rewrite rev_app_distr. simpl.
  destruct (i <=? indent t)%nat; [reflexivity|].
  simpl. now rewrite rev_involutive.
Qed.

Lemma pop_closed_Forall (P : TestNode -> Prop) (i : nat) (b : list TestNode) :
  Forall P b -> Forall P (pop_closed i b).
Proof.
  induction b as [|t b IH] using rev_ind; [now rewrite pop_closed_nil|].
  rewrite pop_closed_snoc. intros H.
  destruct (i <=? indent t)%nat; [|exact H].
  apply IH. now apply Forall_app in H as [H _].
Qed.

Lemma join_not_empty (sep n : string) (rest : list string) :
  n <> EmptyString -> join sep (n :: rest) <> EmptyString.
Proof. intros Hn. destruct n; [contradiction|]. now destruct rest. Qed.

Lemma list_step_names_ok (st : ListState) (line : string) :
  names_ok st -> names_ok (list_step st line).
Proof.
  intros [Hb Ht]. unfold list_step.
  destruct (_TEST_CASE_PATTERN_match line) as [[i n]|] eqn:M; [|now split].
  apply match_name_not_empty in M.
  destruct (String.length i <=? prev_indent st)%nat; split; simpl.
  - apply Forall_app. split; [now apply pop_closed_Forall | now repeat constructor].
  - destruct (String.eqb_spec (get_test_name (test_names_branch st)) EmptyString);
      [assumption|].
    apply Forall_app. split; [assumption | now repeat constructor].
  - apply Forall_app. split; [assumption | now repeat constructor].
  - assumption.
Qed.

Lemma fold_names_ok (lines_ : list string) (st : ListState) :
  names_ok st -> names_ok (fold_left list_step lines_ st).
Proof.
  revert st; induction lines_ as [|l ls IH]; intros st H; simpl; [exact H|].
  apply IH. now apply list_step_names_ok.
Qed.

(** After a matching line the branch is never empty again. *)
Lemma fold_branch_nil (lines_ : list string) (st : ListState) :
  (matched lines_ = [] -> fold_left list_step lines_ st = st)
  /\ (test_names_branch (fold_left list_step lines_ st) = [] ->
      test_names_branch st = [] /\ matched lines_ = []).
Proof.
  revert st; induction lines_ as [|l ls IH]; intros st; simpl; [now split|].
  unfold matched in *. simpl.
  destruct (_TEST_CASE_PATTERN_match l) as [[i n]|] eqn:M.
  - split; [discriminate|]. intros H.
    apply IH in H as [H _]. unfold list_step in H. rewrite M in H.
    destruct (String.length i <=? prev_indent st)%nat; simpl in H;
      now apply app_eq_nil in H as [_ H].
  - rewrite (list_step_no_match st l M). apply IH.
Qed.

(** X11: the hierarchical listing never yields an empty identifier, and it
    yields no identifier at all exactly when no line of the output matches
    the pattern of a test case. *)
Theorem X11_listing_identifiers_not_empty (output : string) :
  Forall (fun x => x <> EmptyString) (list_tests_of_output output)
  /\ (list_tests_of_output output = [] <->
      matched (get_lines_iter output) = []).
Proof.
  unfold list_tests_of_output. fold list_init.
  pose proof (fold_names_ok (get_lines_iter output) list_init) as [Hb Ht];
    [split; constructor|].
  pose proof (fold_branch_nil (get_lines_iter output) list_init) as [Hnil Hbr].
  set (st := fold_left list_step (get_lines_iter output) list_init) in *.
  split.
  - destruct (test_names_branch st) as [|t b] eqn:E; [exact Ht|].
    apply Forall_app. split; [exact Ht|]. repeat constructor.
    inversion Hb; subst. now apply join_not_empty.
  - split.
    + destruct (test_names_branch st) as [|t b] eqn:E.
      * intros _. now apply Hbr.
      * intros H. now apply app_eq_nil in H as [_ H].
    + intros H. subst st. now rewrite (Hnil H).
Qed.

Lemma increasing_snoc (b : list TestNode) (t : TestNode) :
  increasing (b ++ [t])%list <->
  increasing b /\ forall u, last b = Some u -> (indent u < indent t)%nat.
Proof.
  induction b as [|x b IH]; simpl.
  - split; [split; [exact I | discriminate] | trivial].
  - destruct b as [|y b]; simpl in *.
    + split.
      * intros [H _]. split; [exact I|]. now intros u [= <-].
      * intros [_ H]. split; [now apply H | exact I].
    + rewrite IH. split.
      * intros (H1 & H2 & H3). now repeat split.
      * intros ((H1 & H2) & H3). now repeat split.
Qed.

Lemma increasing_middle (b : list TestNode) (x : TestNode) (r : list TestNode) :
  increasing (b ++ x :: r)%list ->
  increasing (b ++ [x])%list
  /\ forall u, last b = Some u -> (indent u < indent x)%nat.
Proof.
  intros H. assert (Hb : increasing (b ++ [x])%list).
  { induction b as [|y b IH]; simpl in *.
    - exact I.
    - destruct b as [|z b]; simpl in *.
      + destruct H as [H _]. now split.
      + destruct H as [H1 H2]. split; [exact H1 | now apply IH]. }
  split; [exact Hb|]. now apply increasing_snoc in Hb as [_ Hb].
Qed.

Lemma pop_closed_increasing (i : nat) (b : list TestNode) :
  increasing b ->
  increasing (pop_closed i b)
  /\ forall u, last (pop_closed i b) = Some u -> (indent u < i)%nat.
Proof.
  induction b as [|t b IH] using rev_ind.
  - intros _. rewrite pop_closed_nil. split; [exact I | discriminate].
  - intros H. rewrite pop_closed_snoc.
    destruct (Nat.leb_spec i (indent t)).
    + apply IH. now apply increasing_snoc in H as [H _].
    + split; [exact H|]. rewrite last_snoc. now intros u [= <-].
Qed.

Lemma list_step_chain_ok (st : ListState) (line : string) :
  chain_ok st -> chain_ok (list_step st line).
Proof.
  intros [Hinc Hlast]. unfold list_step.
  destruct (_TEST_CASE_PATTERN_match line) as [[i n]|]; [|now split].
  destruct (Nat.leb_spec (String.length i) (prev_indent st)); split; simpl.
  - apply increasing_snoc. now apply pop_closed_increasing.
  - rewrite last_snoc. now intros t [= <-].
  - apply increasing_snoc. split; [assumption|].
    intros u Hu. apply Hlast in Hu. simpl. lia.
  - rewrite last_snoc. now intros t [= <-].
Qed.

(** X12: after any number of lines the branch kept by the loop of
    [_list_tests] is a chain of strictly growing indents, and its last node
    has the indent recorded as previous indent. *)
Theorem X12_listing_branch_is_a_chain (lines_ : list string) :
  increasing (test_names_branch (fold_left list_step lines_ list_init))
  /\ forall t,
       last (test_names_branch (fold_left list_step lines_ list_init)) = Some t ->
       indent t = prev_indent (fold_left list_step lines_ list_init).
Proof.
  assert (H : forall st, chain_ok st ->
                         chain_ok (fold_left list_step lines_ st)).
  { induction lines_ as [|l ls IH]; intros st Hst; simpl; [exact Hst|].
    apply IH. now apply list_step_chain_ok. }
  apply (H list_init). split; [exact I | discriminate].
Qed.

End ListingFold.

Section ListingShapes.

Import PyStr ElementTree BoostTestFacade Samples Shapes.

(** A flat listing, once its first node is on the branch. *)
Lemma flat_fold (k : nat) (lines_ : list string) :
  forall ts n0,
    Forall (fun g => String.length (fst g) = k) (matched lines_) ->
    n0 <> EmptyString ->
    exists n',
      test_names_branch
        (fold_left list_step lines_
           {| prev_indent := k; tests := ts;
              test_names_branch := [ {| name := n0; indent := k |} ] |})
      = [ {| name := n'; indent := k |} ]
      /\ (tests
            (fold_left list_step lines_
               {| prev_indent := k; tests := ts;
                  test_names_branch := [ {| name := n0; indent := k |} ] |})
          ++ [n'])%list
         = (ts ++ n0 :: map snd (matched lines_))%list.
Proof.
  induction lines_ as [|l ls IH]; intros ts n0 Hall Hn0; simpl.
  - now exists n0.
  - unfold matched in *. simpl in Hall.
    destruct (_TEST_CASE_PATTERN_match l) as [[i n]|] eqn:M.
    + apply Forall_cons in Hall as [Hi Hrest]. simpl in Hi. subst k.
      assert (Hstep :
        list_step {| prev_indent := String.length i; tests := ts;
                     test_names_branch :=
                       [ {| name := n0; indent := String.length i |} ] |} l
        = {| prev_indent := String.length i; tests := (ts ++ [n0])%list;
             test_names_branch :=
               [ {| name := n; indent := String.length i |} ] |}).
      { unfold list_step. rewrite M. simpl.
        rewrite Nat.leb_refl. unfold get_test_name. simpl.
        destruct (String.eqb_spec n0 EmptyString); [contradiction|].
        unfold pop_closed. simpl. now rewrite Nat.leb_refl. }
      rewrite Hstep.
      destruct (IH (ts ++ [n0])%list n Hrest (match_name_not_empty _ _ _ M))
        as (n' & Hb & Ht).
      exists n'. split; [exact Hb|]. simpl. rewrite Ht.
      now rewrite <- app_assoc.
    + rewrite (list_step_no_match _ l M). now apply IH.
Qed.

(** X13: when all the matching lines of a listing have the same indent, the
    identifiers are the names on these lines, one for one and in order;
    lines that do not match (blank lines, separators) change nothing. *)
Theorem X13_flat_listing (output : string) (k : nat) :
  Forall (fun g => String.length (fst g) = k) (matched (get_lines_iter output)) ->
  list_tests_of_output output = map snd (matched (get_lines_iter output)).
Proof.
  unfold list_tests_of_output. fold list_init.
  induction (get_lines_iter output) as [|l ls IH]; intros Hall; simpl;
    [reflexivity|].
  unfold matched in *. simpl in *.
  destruct (_TEST_CASE_PATTERN_match l) as [[i n]|] eqn:M.
  - apply Forall_cons in Hall as [Hi Hrest]. simpl in Hi. subst k.
    assert (Hstep :
      list_step list_init l
      = {| prev_indent := String.length i; tests := [];
           test_names_branch :=
             [ {| name := n; indent := String.length i |} ] |}).
    { unfold list_step. rewrite M. simpl.
      now destruct (String.length i <=? 0)%nat. }
    rewrite Hstep.
    destruct (flat_fold (String.length i) ls [] n Hrest
                (match_name_not_empty _ _ _ M)) as (n' & Hb & Ht).
    rewrite Hb. exact Ht.
  - rewrite (list_step_no_match _ l M). now apply IH.
Qed.

(** A listing that only goes deeper keeps pushing on the branch. *)
Lemma chain_fold (lines_ : list string) :
  forall st,
    chain_ok st ->
    (test_names_branch st = [] -> prev_indent st = 0%nat) ->
    increasing (test_names_branch st ++ map node_of (matched lines_))%list ->
    tests (fold_left list_step lines_ st) = tests st
    /\ test_names_branch (fold_left list_step lines_ st)
       = (test_names_branch st ++ map node_of (matched lines_))%list.
Proof.
  induction lines_ as [|l ls IH]; intros st Hst Hzero Hinc; simpl.
  - now rewrite app_nil_r.
  - unfold matched in *. simpl in *.
    destruct (_TEST_CASE_PATTERN_match l) as [[i n]|] eqn:M.
    + simpl in Hinc. destruct Hst as [_ Hlast].
      apply increasing_middle in Hinc as Hmid. destruct Hmid as [Hsn Hlt].
      assert (Hstep :
        list_step st l
        = {| prev_indent := String.length i; tests := tests st;
             test_names_branch :=
               (test_names_branch st ++ [node_of (i, n)])%list |}).
      { unfold list_step. rewrite M.
        destruct (test_names_branch st) as [|t b] eqn:E.
        - rewrite (Hzero eq_refl). unfold get_test_name. simpl.
          now destruct (String.length i <=? 0)%nat.
        - rewrite <- E in *.
          destruct (last (test_names_branch st)) as [u|] eqn:Hu.
          + specialize (Hlast u eq_refl). specialize (Hlt u eq_refl).
            simpl in Hlt.
            destruct (Nat.leb_spec (String.length i) (prev_indent st));
              [lia | reflexivity].
          + apply last_None in Hu. congruence. }
      rewrite Hstep.
      destruct (IH {| prev_indent := String.length i; tests := tests st;
                      test_names_branch :=
                        (test_names_branch st ++ [node_of (i, n)])%list |})
        as [Ht Hb].
      * split; simpl; [exact Hsn|]. rewrite last_snoc. now intros t [= <-].
      * simpl. intros H. now apply app_eq_nil in H as [_ H].
      * simpl. now rewrite <- app_assoc.
      * simpl in *. split; [exact Ht|]. now rewrite Hb, <- app_assoc.
    + rewrite (list_step_no_match _ l M). now apply IH.
Qed.

(** X14: when every matching line of a listing is indented deeper than the
    one before, the listing yields a single identifier: the names of all
    matching lines joined by slashes (and none when no line matches). *)
Theorem X14_nested_listing (output : string) :
  increasing (map node_of (matched (get_lines_iter output))) ->
  list_tests_of_output output =
  match matched (get_lines_iter output) with
  | [] => []
  | groups => [join "/" (map snd groups)]
  end.
Proof.
  intros Hinc. unfold list_tests_of_output. fold list_init.
  destruct (chain_fold (get_lines_iter output) list_init) as [Ht Hb].
  - split; [exact I | discriminate].
  - reflexivity.
  - exact Hinc.
  - rewrite Ht, Hb. simpl.
    destruct (matched (get_lines_iter output)) as [|g gs]; [reflexivity|].
    simpl. unfold get_test_name. simpl. now rewrite map_map.
Qed.

End ListingShapes.

(** ** Lines *)

Section Lines.

Import PyStr ElementTree BoostTestFacade Samples Shapes.

Lemma join_split_rounds (n : nat) (sep s : string) :
  join sep (split_rounds n sep s) = s.
Proof.
  revert s; induction n as [|n IH]; intros s; simpl; [reflexivity|].
  destruct (partition sep s) as [[a b]|] eqn:P; [|reflexivity].
  specialize (IH b).
  destruct (split_rounds n sep b) as [|x xs] eqn:E;
    [now apply split_rounds_not_nil in E|].
  change (a ++ sep ++ join sep (x :: xs) = s).
  rewrite IH. symmetry. now apply partition_Some.
Qed.

Lemma partition_head_free (sep s a b : string) :
  (1 <= String.length sep)%nat ->
  partition sep s = Some (a, b) -> ~ occurs_in sep a.
Proof.
  intros Hsep P (u & v & Hx).
  pose proof (partition_Some _ _ _ _ P) as Hs.
  assert (Hs' : s = u ++ sep ++ (v ++ sep ++ b))
    by (rewrite Hs, Hx, !append_assoc; reflexivity).
  pose proof (partition_first _ _ _ _ _ _ P Hs') as Hle.
  rewrite Hx, !length_append in Hle. lia.
Qed.

Lemma split_rounds_free (n : nat) (sep s : string) :
  (1 <= String.length sep)%nat -> (String.length s <= n)%nat ->
  Forall (fun x => ~ occurs_in sep x) (split_rounds n sep s).
Proof.
  intros Hsep. revert s; induction n as [|n IH]; intros s Hn; simpl.
  - repeat constructor. intros H%occurs_in_length. lia.
  - destruct (partition sep s) as [[a b]|] eqn:P.
    + constructor; [now apply (partition_head_free sep s a b)|].
      apply IH. apply partition_Some in P.
      rewrite P, !length_append in Hn. lia.
    + repeat constructor. now apply partition_None.
Qed.

(** X15: the lines that the loop of [_list_tests] goes through, put
    together again with line feeds between them, are the captured output;
    there is at least one line and no line holds a line feed. *)
Theorem X15_lines_of_listing (text : string) :
  join newline (get_lines_iter text) = text
  /\ get_lines_iter text <> []
  /\ Forall (fun line => ~ occurs_in newline line) (get_lines_iter text).
Proof.
  unfold get_lines_iter, split, newline. repeat split.
  - apply join_split_rounds.
  - apply split_rounds_not_nil.
  - apply split_rounds_free; simpl; lia.
Qed.

Lemma none_of_snoc (p : ascii -> bool) (s : string) (c : ascii) :
  none_of p s -> p c = false -> none_of p (s ++ String c EmptyString).
Proof. induction s as [|x s IH]; simpl; intuition. Qed.

Lemma splitlines_from_free (n : nat) :
  forall s cur,
    (String.length s <= n)%nat -> none_of is_linebreak cur ->
    Forall (none_of is_linebreak) (splitlines_from cur s).
Proof.
  induction n as [|n IH]; intros s cur Hn Hcur.
  - destruct s; [|simpl in Hn; lia]. simpl.
    destruct (String.eqb cur EmptyString); repeat constructor; assumption.
  - destruct s as [|c s]; simpl.
    + destruct (String.eqb cur EmptyString); repeat constructor; assumption.
    + simpl in Hn. destruct (is_linebreak c) eqn:Hc.
      * constructor; [assumption|].
        destruct s as [|c' s'']; [now apply IH; [simpl; lia|]|].
        destruct (Ascii.eqb c CR && Ascii.eqb c' LF);
          apply IH; simpl in *; try lia; exact I.
      * apply IH; [lia|]. now apply none_of_snoc.
Qed.

Lemma splitlines_from_one (s : string) :
  forall cur,
    none_of is_linebreak s ->
    splitlines_from cur s =
    if String.eqb (cur ++ s) EmptyString then [] else [cur ++ s].
Proof.
  induction s as [|c s IH]; intros cur Hs; simpl.
  - now rewrite append_empty_r.
  - destruct Hs as [Hc Hs]. rewrite Hc, IH by assumption.
    now rewrite append_assoc.
Qed.

(** X16: a failure built from a text keeps the file and the line it was
    given; none of its lines holds a line boundary; a text without line
    boundaries gives that text as the only line, and the empty text gives
    no line at all; [get_lines] shows the same lines, each with its
    markup.  Built from [None] instead of a text, the constructor raises
    AttributeError. *)
Theorem X16_failure_lines (file : string) (line : Z) (contents : string) :
  exists f,
    BoostTestFailure_init file line (Some contents) = Ok f
    /\ get_file_reference f = (file, line)
    /\ Forall (none_of is_linebreak) (lines f)
    /\ (none_of is_linebreak contents ->
        lines f = if String.eqb contents EmptyString then [] else [contents])
    /\ map fst (get_lines f) = lines f
    /\ exists what,
         BoostTestFailure_init file line None = Raise (AttributeError what).
Proof.
  eexists. split; [reflexivity|]. simpl. repeat split.
  - apply (splitlines_from_free (String.length contents)); [lia | exact I].
  - intros H. unfold splitlines. now rewrite splitlines_from_one.
  - unfold get_lines. simpl. rewrite map_map. simpl. apply map_id.
  - eauto.
Qed.

End Lines.

(** ** The parts of an executable path *)

Section PathParts.

Import PyStr os_path ElementTree BoostTestFacade Samples Shapes.

Lemma rfind_get (c : ascii) (s : string) :
  0 <= rfind c s -> String.get (Z.to_nat (rfind c s)) s = Some c.
Proof.
  induction s as [|a s IH]; simpl; [lia|].
  pose proof (rfind_bounds c s).
  destruct (Z.leb_spec 0 (rfind c s)).
  - intros _. replace (Z.to_nat (rfind c s + 1)) with (S (Z.to_nat (rfind c s)))
      by lia.
    now apply IH.
  - destruct (Ascii.eqb_spec a c) as [->|]; [reflexivity | lia].
Qed.

Lemma take_S_get (i : nat) (s : string) (c : ascii) :
  String.get i s = Some c -> take (S i) s = take i s ++ String c EmptyString.
Proof.
  revert s; induction i as [|i IH]; intros [|a s]; simpl; try discriminate.
  - now intros [= ->].
  - intros H. f_equal. now apply (IH s).
Qed.

Lemma drop_get (i : nat) (s : string) (c : ascii) :
  String.get i s = Some c -> drop i s = String c (drop (S i) s).
Proof.
  revert s; induction i as [|i IH]; intros [|a s]; simpl; try discriminate.
  - now intros [= ->].
  - apply IH.
Qed.

Lemma rfind_append_none (c : ascii) (x y : string) :
  rfind c (x ++ y) = -1 -> rfind c x = -1 /\ rfind c y = -1.
Proof.
  induction x as [|a x IH]; simpl; [now split|].
  pose proof (rfind_bounds c (x ++ y)).
  destruct (Z.leb_spec 0 (rfind c (x ++ y))); [lia|].
  destruct (Ascii.eqb a c); [lia|].
  intros _. destruct IH as [Hx Hy]; [lia|]. now rewrite Hx, Hy.
Qed.

Lemma splitext_append (p : string) :
  fst (splitext p) ++ snd (splitext p) = p.
Proof.
  unfold splitext, slice_to, slice_from.
  destruct (_ && _); simpl; [apply take_drop | apply append_empty_r].
Qed.

(** The extension is empty, or a dot followed by text without a dot. *)
Lemma splitext_extension (p : string) :
  snd (splitext p) = EmptyString
  \/ exists e, snd (splitext p) = String "." e /\ rfind "." e = -1.
Proof.
  unfold splitext, slice_to, slice_from.
  pose proof (rfind_bounds "/" p). pose proof (rfind_bounds "." p).
  destruct (Z.ltb_spec (rfind "/" p) (rfind "." p)); simpl; [|now left].
  destruct (has_non_dot _ _ p); simpl; [|now left].
  right. exists (drop (S (Z.to_nat (rfind "." p))) p). split.
  - apply drop_get, rfind_get. lia.
  - rewrite rfind_drop.
    destruct (Z.leb_spec (Z.of_nat (S (Z.to_nat (rfind "." p)))) (rfind "." p));
      [lia | reflexivity].
Qed.

(** X17: the identifier of the fallback listing is a piece of the
    executable path: the path is a directory part (empty or ending in a
    slash), then the identifier, then an extension (empty, or a dot
    followed by text without a dot); neither the identifier nor the
    extension holds a slash. *)
Theorem X17_fallback_identifier_parts (executable : string) :
  exists identifier dir ext,
    _list_tests_fallback executable = [identifier]
    /\ executable = dir ++ identifier ++ ext
    /\ rfind "/" identifier = -1
    /\ rfind "/" ext = -1
    /\ (dir = EmptyString \/ exists d, dir = d ++ "/")
    /\ (ext = EmptyString \/ exists e, ext = String "." e /\ rfind "." e = -1).
Proof.
  exists (fst (splitext (basename executable))),
         (take (Z.to_nat (rfind "/" executable + 1)) executable),
         (snd (splitext (basename executable))).
  pose proof (rfind_bounds "/" executable) as Hb.
  assert (Hbase : rfind "/" (basename executable) = -1).
  { unfold basename, slice_from. rewrite rfind_drop.
    destruct (Z.leb_spec (Z.of_nat (Z.to_nat (rfind "/" executable + 1)))
                (rfind "/" executable)); [lia | reflexivity]. }
  rewrite <- (splitext_append (basename executable)) in Hbase.
  apply rfind_append_none in Hbase as [Hid Hext].
  split; [|split; [|split; [|split; [|split]]]].
  - unfold _list_tests_fallback. now rewrite basename_splitext.
  - rewrite splitext_append. unfold basename, slice_from.
    now rewrite take_drop.
  - exact Hid.
  - exact Hext.
  - destruct (Z.leb_spec 0 (rfind "/" executable)) as [Hs|Hs].
    + right. exists (take (Z.to_nat (rfind "/" executable)) executable).
      replace (Z.to_nat (rfind "/" executable + 1))
        with (S (Z.to_nat (rfind "/" executable))) by lia.
      now apply take_S_get, rfind_get.
    + left. replace (rfind "/" executable) with (-1) by lia. reflexivity.
  - apply splitext_extension.
Qed.

End PathParts.

(** ** What the readers raise, and the JUnit run as a whole *)

Section Raising.

Import PyStr ElementTree BoostTestFacade Samples Shapes.

Variable fromstring : string -> result Element.

Lemma rfold_parse_log_elem_raise (good : list Element) :
  forall acc ys bad rest e,
    Forall2 reports good ys ->
    (forall acc', parse_log_elem acc' bad = Raise e) ->
    rfold parse_log_elem (good ++ bad :: rest) acc = Raise e.
Proof.
  induction good as [|x good IH]; intros acc ys bad rest e Hgood Hbad; simpl.
  - now rewrite Hbad.
  - inversion Hgood as [|? f ? ys' Hf Hys]; subst.
    assert (E : parse_log_elem acc x = Ok (acc ++ [f])%list)
      by (apply parse_log_elem_Ok; eauto).
    rewrite E. simpl. now apply (IH _ ys').
Qed.

(** X18: the parser of the native log gives up at the first Exception,
    Error or FatalError child (in the order of the records) that cannot be
    reported, and returns nothing of what came before: a missing file
    attribute raises KeyError 'file', else a missing line attribute KeyError
    'line', else a line that is not an integer ValueError, else an element
    without text AttributeError. *)
Theorem X18_parse_log_first_bad_element (log : string) (root : Element)
    (good : list Element) (bad : Element) (rest : list Element)
    (ys : list BoostTestFailure) :
  startswith "<FatalError" log = false ->
  fromstring log = Ok root ->
  reported_elements root = (good ++ bad :: rest)%list ->
  Forall2 reports good ys ->
  (attrib bad !! "file" = None ->
   _parse_log fromstring (Some log) = Raise (KeyError "file"))
  /\ (forall file,
        attrib bad !! "file" = Some file -> attrib bad !! "line" = None ->
        _parse_log fromstring (Some log) = Raise (KeyError "line"))
  /\ (forall file line e,
        attrib bad !! "file" = Some file -> attrib bad !! "line" = Some line ->
        int line = Raise e ->
        _parse_log fromstring (Some log) = Raise e)
  /\ (forall file line n,
        attrib bad !! "file" = Some file -> attrib bad !! "line" = Some line ->
        int line = Ok n -> text bad = None ->
        exists what,
          _parse_log fromstring (Some log) = Raise (AttributeError what)).
Proof.
  intros Hstart Hroot Helems Hgood.
  assert (H : forall e, (forall acc', parse_log_elem acc' bad = Raise e) ->
                        _parse_log fromstring (Some log) = Raise e).
  { intros e Hbad. unfold _parse_log. rewrite Hstart. simpl.
    rewrite Hroot. simpl. fold (reported_elements root). rewrite Helems.
    now apply (rfold_parse_log_elem_raise good [] ys). }
  repeat split.
  - intros Hf. apply H. intros acc'. unfold parse_log_elem, getitem.
    now rewrite Hf.
  - intros file Hf Hl. apply H. intros acc'. unfold parse_log_elem, getitem.
    now rewrite Hf, Hl.
  - intros file line e Hf Hl Hint. apply H. intros acc'.
    unfold parse_log_elem, getitem. rewrite Hf, Hl. simpl. now rewrite Hint.
  - intros file line n Hf Hl Hint Ht. eexists. apply H. intros acc'.
    unfold parse_log_elem, getitem. rewrite Hf, Hl. simpl.
    rewrite Hint, Ht. reflexivity.
Qed.

(** X19: for an executable whose help text advertises the JUNIT log format
    and whose child can be started, [run_test] and the facade made by
    [create_facade] never return: the run stops with AttributeError at
    [junit_xml.get_failures], before the log file is read, so the outcome
    does not depend on the file, on the exit status or on the test id. *)
Theorem X19_junit_run_always_raises (os : OS) (executable test_id : string)
    (test_args : list string) (output : string) (p : Completed) :
  check_output os [executable; "--help"] = Ok output ->
  _JUNIT_LOG_FORMAT_search output = true ->
  popen os (app [executable; "--log_format=JUNIT";
                 "--log_sink=" ++ mkstemp os "log.xml"] test_args) = Ok p ->
  (exists what,
     run_test fromstring os executable test_id test_args
     = Raise (AttributeError what))
  /\ (exists facade what,
        create_facade os executable = Ok facade
        /\ Facade_run_test fromstring os facade executable test_id test_args
           = Raise (AttributeError what)).
Proof.
  intros Hhelp Hsearch Hp. split.
  - unfold run_test, try_except. rewrite Hhelp. simpl. rewrite Hsearch.
    unfold _run_tests. rewrite Hp. simpl. eauto.
  - unfold create_facade, try_except. rewrite Hhelp. simpl. rewrite Hsearch.
    eexists. eexists. split; [reflexivity|].
    unfold Facade_run_test. cbn [_run_test_fn]. unfold _run_tests.
    rewrite Hp. simpl. reflexivity.
Qed.

End Raising.

(** ** The further properties at sample inputs *)

Section Instances.

Import PyStr ElementTree BoostTestFacade Samples Shapes MoreSamples.

Lemma X1_parse_log_reports_children_witness :
  length [ {| filename := "a.cpp"; linenum := 5; lines := ["bad"] |} ]
  = length (List.filter is_reported_tag (children root_one_exception)).
Proof.
  exact (proj2 (X1_parse_log_reports_children fromstring log_one_exception
                  root_one_exception
                  [ {| filename := "a.cpp"; linenum := 5; lines := ["bad"] |} ]
                  eq_refl eq_refl)
           eq_refl).
Defined.

Lemma X2_fatal_fragment_comes_first_witness :
  exists fatal remainder fatal_root log_root r rest line,
    log_fatal_located = fatal ++ "</FatalError>" ++ remainder
    /\ ~ occurs_in "</FatalError>" fatal
    /\ ~ occurs_in "</FatalError>" remainder
    /\ fromstring (fatal ++ "</FatalError>") = Ok fatal_root
    /\ fromstring remainder = Ok log_root
    /\ [ {| filename := "f.cpp"; linenum := 3;
            lines := ["Fatal Error: boom"] |};
         {| filename := "a.cpp"; linenum := 5; lines := ["bad"] |} ]
       = r :: rest
    /\ attrib fatal_root !! "file" = Some (filename r)
    /\ attrib fatal_root !! "line" = Some line
    /\ int line = Ok (linenum r)
    /\ lines r
       = splitlines ("Fatal Error: " ++ str_of_optional (text fatal_root))
    /\ Forall2 reports (reported_elements log_root) rest.
Proof.
  exact (proj1 (X2_fatal_fragment_comes_first fromstring log_fatal_located
                  eq_refl)
           [ {| filename := "f.cpp"; linenum := 3;
                lines := ["Fatal Error: boom"] |};
             {| filename := "a.cpp"; linenum := 5; lines := ["bad"] |} ]
           eq_refl).
Defined.

Lemma X3_fatal_report_wins_over_log_witness :
  _run_tests_fallback fromstring os_setup_error "./t" "t" []
  = Ok (VFailures [ {| filename := "unknown location"; linenum := 0;
                       lines := ["Test setup error: no test cases"] |} ])
  /\ _run_tests_fallback fromstring os_setup_error_undecodable_log "./t" "t" []
     = Raise UnicodeDecodeError.
Proof.
  split.
  - exact (proj1 (X3_fatal_report_wins_over_log fromstring os_setup_error
                    "./t" "t" []
                    {| returncode := 200; stdout := EmptyString |} None
                    "Test setup error: no test cases" "no test cases"
                    eq_refl eq_refl (or_intror eq_refl))
             eq_refl eq_refl).
  - exact (proj2 (X3_fatal_report_wins_over_log fromstring
                    os_setup_error_undecodable_log "./t" "t" []
                    {| returncode := 200; stdout := EmptyString |} None
                    "Test setup error: no test cases" "no test cases"
                    eq_refl eq_refl (or_intror eq_refl))
             UnicodeDecodeError eq_refl).
Defined.

Lemma X4_junit_parse_tuples_witness :
  Forall2 describes (junit_cases root_junit_S_status)
    [("S.t1", [], false); ("S.t2", [], true)]
  /\ Forall named (findall "testsuite" root_junit_S_status).
Proof.
  exact (proj1 (X4_junit_parse_tuples fromstring (os_junit junit_S_status)
                  "/tmp/tmplog.xml" junit_S_status root_junit_S_status
                  [("S.t1", [], false); ("S.t2", [], true)]
                  eq_refl eq_refl)
           eq_refl).
Defined.

Lemma X5_junit_parse_needs_testsuite_children_witness :
  junit_xml.parse fromstring (os_junit junit_root_suite) "/tmp/tmplog.xml"
  = Ok [].
Proof.
  apply (X5_junit_parse_needs_testsuite_children fromstring
           (os_junit junit_root_suite) "/tmp/tmplog.xml" junit_root_suite
           root_junit_root_suite eq_refl eq_refl).
  repeat constructor. discriminate.
Defined.

Lemma X6_junit_loop_never_returns_failures_witness :
  exists what,
    run_tests_on "S.t1" [("S.t1", [Some "x"], false)] = Raise (TypeError what).
Proof.
  exact (proj2 (X6_junit_loop_never_returns_failures "S.t1"
                  [("S.t1", [Some "x"], false)])
           "S.t1" (Some "x") [] false eq_refl).
Defined.

Lemma X7_create_facade_choice_witness :
  _list_test_fn {| _list_test_fn := use_list_tests_fallback;
                   _run_test_fn := use_run_tests |}
  = use_list_tests_fallback.
Proof.
  exact (proj1 (X7_create_facade_choice (os_junit junit_S_status) "./t"
                  {| _list_test_fn := use_list_tests_fallback;
                     _run_test_fn := use_run_tests |} eq_refl)).
Defined.

Lemma X8_run_test_agrees_with_facade_witness :
  Facade_run_test fromstring (os_junit junit_S_status)
    {| _list_test_fn := use_list_tests_fallback;
       _run_test_fn := use_run_tests |} "./t" "S.t2" []
  = run_test fromstring (os_junit junit_S_status) "./t" "S.t2" [].
Proof.
  apply (X8_run_test_agrees_with_facade fromstring (os_junit junit_S_status)
           "./t" "S.t2" []).
  - intros args code. discriminate.
  - reflexivity.
Defined.

Lemma X9_is_test_suite_markers_witness :
  exists output,
    check_output (os_junit junit_S_status) ["./t"; "--help"] = Ok output
    /\ occurs_in "--output_format" output
    /\ occurs_in "log_format" output.
Proof.
  exact (proj1 (proj1 (X9_is_test_suite_markers (os_junit junit_S_status)
                         "./t")) eq_refl).
Defined.

Lemma X10_test_case_pattern_witness :
  exists rest,
    "  C*" = "  " ++ "C" ++ "*" ++ rest
    /\ all_of is_space "  "
    /\ "C" <> EmptyString
    /\ all_of name_char "C".
Proof.
  exact (proj1 (X10_test_case_pattern "  C*" "  " "C") eq_refl).
Defined.

Lemma X11_listing_identifiers_not_empty_witness :
  matched (get_lines_iter "Running 0 test cases") = [].
Proof.
  exact (proj1 (proj2 (X11_listing_identifiers_not_empty
                         "Running 0 test cases")) eq_refl).
Defined.

Lemma X12_listing_branch_is_a_chain_witness :
  indent {| name := "B"; indent := 2 |}
  = prev_indent (fold_left list_step ["A*"; "  B*"] list_init).
Proof.
  exact (proj2 (X12_listing_branch_is_a_chain ["A*"; "  B*"])
           {| name := "B"; indent := 2 |} eq_refl).
Defined.

Lemma X13_flat_listing_witness :
  list_tests_of_output listing_flat = ["a"; "b"].
Proof.
  apply (X13_flat_listing listing_flat 0).
  vm_compute. repeat constructor.
Defined.

Lemma X14_nested_listing_witness :
  list_tests_of_output listing_nested = ["A/B"].
Proof.
  apply (X14_nested_listing listing_nested).
  vm_compute. split; [lia | exact I].
Defined.

Lemma X16_failure_lines_witness :
  exists f,
    BoostTestFailure_init "a.cpp" 5 (Some "bad") = Ok f
    /\ lines f = ["bad"].
Proof.
  destruct (X16_failure_lines "a.cpp" 5 "bad") as (f & Hf & _ & _ & Hone & _).
  exists f. split; [exact Hf|].
  apply Hone. simpl. repeat split.
Defined.

Lemma X18_parse_log_first_bad_element_witness :
  _parse_log fromstring (Some log_no_file) = Raise (KeyError "file").
Proof.
  exact (proj1 (X18_parse_log_first_bad_element fromstring log_no_file
                  root_no_file [] exception_no_file [] []
                  eq_refl eq_refl eq_refl ltac:(constructor))
           eq_refl).
Defined.

Lemma X19_junit_run_always_raises_witness :
  exists what,
    run_test fromstring (os_junit junit_S_status) "./t" "S.t1" []
    = Raise (AttributeError what).
Proof.
  exact (proj1 (X19_junit_run_always_raises fromstring
                  (os_junit junit_S_status) "./t" "S.t1" [] help_junit
                  {| returncode := 0; stdout := EmptyString |}
                  eq_refl eq_refl eq_refl)).
Defined.

End Instances.
